(** * Jobly: the dynamic SQL builders of [helpers/sql.js]

    A shallow embedding of [sqlForPartialUpdate] and [sqlForFilterQueries]
    (helpers/sql.js) and of the prefix of [Job.filter] (models/job.js) that
    precedes the database call, together with the part of the JavaScript
    run time these functions rely on: string case folding, [Array.join],
    the unary plus coercion of a string to a Number, the [>=] comparison
    of Numbers and the conversion of a Number to a string inside a
    template literal.

    Modelling conventions.
    - A JavaScript string is a [string]: a sequence of code units below
      256 (the Latin-1 range). Case folding and white space are exact on
      that range.
    - A JavaScript Number is an IEEE-754 binary64 value, a [spec_float]
      of the Standard Library with precision 53 and maximal exponent 1024.
    - An object used as a map is the list of its own (key, value) entries
      in [Object.keys] order; an object has no two entries with the same
      key, which theorems that need it state as [NoDup (keys o)].
      An object is an ordinary one: what it does not hold itself it
      inherits from [Object.prototype]. The name map of an update is
      read with that inheritance ([readProperty]); the filter request
      is read on its own keys only, and a read of another name ends
      as the read of [undefined] does.
    - The values of a filter request are strings (query parameters arrive
      as text); the values of an update request are kept abstract, as the
      code only passes them through.
    - A thrown exception is the [Throw] result of a computation.
    - [REJECTEDVALUES] is a constant of config.js, which is not among
      the sources: [sqlForFilterQueries] and [Job.filter] take it as a
      parameter, and every theorem holds for every list of rejected
      strings.
    - [Job.filter] is modelled up to its call of [db.query]: its result
      is the statement it would send, or the exception thrown before;
      so are [Job.update] and the handler of [GET /jobs].
    - A middleware of middleware/auth.js is a function from the request
      and [res.locals.user] to the new [res.locals.user] and the
      argument of [next]; [jwt.verify] is a parameter. *)

From Stdlib Require Import String Ascii List Bool Arith ZArith Lia.
From Stdlib Require Import DecimalString DecimalNat.
From Stdlib Require Import Floats.SpecFloat.
Import ListNotations.
Local Open Scope list_scope.
Local Open Scope string_scope.

(** ** JavaScript strings *)

Module JsString.

(** The code unit of a character. *)
Definition code (c : ascii) : nat := nat_of_ascii c.

(** The double quote character, as a one-character string. *)
Definition dquote : string := String (ascii_of_nat 34) EmptyString.

(** [String.prototype.toLowerCase] on one Latin-1 code unit: the
    letters A-Z and the accented capitals U+00C0-U+00DE, except the
    multiplication sign U+00D7, move up by 32; every other code unit
    below 256 is its own lower case. *)
Definition lowerChar (c : ascii) : ascii :=
  let n := code c in
  if (((65 <=? n) && (n <=? 90))
      || ((192 <=? n) && (n <=? 222) && negb (n =? 215)))%nat
  then ascii_of_nat (n + 32)
  else c.

Fixpoint toLowerCase (s : string) : string :=
  match s with
  | EmptyString => EmptyString
  | String c r => String (lowerChar c) (toLowerCase r)
  end.

(** White space and line terminators of the language, below 256:
    TAB, LF, VT, FF, CR, SPACE and NO-BREAK SPACE. *)
Definition isWhiteSpace (c : ascii) : bool :=
  let n := code c in
  (((9 <=? n) && (n <=? 13)) || (n =? 32) || (n =? 160))%nat.

Fixpoint trimStart (s : string) : string :=
  match s with
  | EmptyString => EmptyString
  | String c r => if isWhiteSpace c then trimStart r else s
  end.

(** [trimEnd s] drops the trailing white space of [s]. *)
Fixpoint trimEnd (s : string) : string :=
  match s with
  | EmptyString => EmptyString
  | String c r =>
      match trimEnd r with
      | EmptyString => if isWhiteSpace c then EmptyString else String c EmptyString
      | r' => String c r'
      end
  end.

Definition trim (s : string) : string := trimEnd (trimStart s).

(** [Array.prototype.join] on an array of strings. *)
Fixpoint join (sep : string) (l : list string) : string :=
  match l with
  | [] => EmptyString
  | [x] => x
  | x :: r => x ++ sep ++ join sep r
  end.

(** A string of white space only (the empty string included). *)
Fixpoint whitespaceOnly (s : string) : bool :=
  match s with
  | EmptyString => true
  | String c r => isWhiteSpace c && whitespaceOnly r
  end.

End JsString.

(** ** JavaScript Numbers *)

Module JsNumber.

Definition prec : Z := 53.
Definition emax : Z := 1024.

(** A Number is a binary64 value. *)
Definition Number : Type := spec_float.

Definition NaN : Number := S754_nan.

(** [ofRatio neg n m] is the Number nearest to the rational [n / m]
    (ties to even), with sign [neg], for [0 <= n] and [0 < m]. The
    quotient is computed down to the bit of weight [2^-1076], below
    half of the least subnormal, and the remainder gives the position
    of the exact value between two such quotients. *)
Definition ofRatio (neg : bool) (n m : Z) : Number :=
  if (n =? 0)%Z then S754_zero neg
  else
    let scaled := (n * 2 ^ 1076)%Z in
    let q := (scaled / m)%Z in
    let r := (scaled mod m)%Z in
    let loc := if (r =? 0)%Z then loc_Exact
               else loc_Inexact (Z.compare (2 * r) m) in
    binary_round_aux prec emax neg q (-1076) loc.

(** The Number nearest to [d * 10^e]. *)
Definition ofDecimal (neg : bool) (d e : Z) : Number :=
  if (0 <=? e)%Z then ofRatio neg (d * 10 ^ e) 1
  else ofRatio neg d (10 ^ (- e)).

(** *** Unary plus on a string: StringToNumber *)

(** The value of a digit in a radix up to 16, if it is one. *)
Definition digitValue (radix : Z) (c : ascii) : option Z :=
  let n := Z.of_nat (nat_of_ascii c) in
  let v := if ((48 <=? n) && (n <=? 57))%Z then Some (n - 48)%Z
           else if ((97 <=? n) && (n <=? 102))%Z then Some (n - 87)%Z
           else if ((65 <=? n) && (n <=? 70))%Z then Some (n - 55)%Z
           else None in
  match v with
  | Some d => if (d <? radix)%Z then Some d else None
  | None => None
  end.

(** [readDigits radix acc cnt s] reads the longest prefix of digits of
    [s]: the value read (on top of [acc]), the number of digits read (on
    top of [cnt]) and the rest of the string. *)
Fixpoint readDigits (radix acc : Z) (cnt : nat) (s : string) : Z * nat * string :=
  match s with
  | EmptyString => (acc, cnt, s)
  | String c r =>
      match digitValue radix c with
      | Some d => readDigits radix (acc * radix + d)%Z (S cnt) r
      | None => (acc, cnt, s)
      end
  end.

(** A non-empty string of digits of the radix, and nothing else. *)
Definition allDigits (radix : Z) (s : string) : option Z :=
  match readDigits radix 0 0 s with
  | (v, S _, EmptyString) => Some v
  | _ => None
  end.

(** NonDecimalIntegerLiteral: [0x], [0o] or [0b] (either case) and digits. *)
Definition nonDecimalLiteral (s : string) : option Z :=
  match s with
  | String "0" (String c r) =>
      if (Ascii.eqb c "x" || Ascii.eqb c "X")%bool then allDigits 16 r
      else if (Ascii.eqb c "o" || Ascii.eqb c "O")%bool then allDigits 8 r
      else if (Ascii.eqb c "b" || Ascii.eqb c "B")%bool then allDigits 2 r
      else None
  | _ => None
  end.

(** ExponentPart, or nothing: the exponent read, when the string is
    exactly an optional exponent part. *)
Definition exponentPart (s : string) : option Z :=
  match s with
  | EmptyString => Some 0%Z
  | String c r =>
      if (Ascii.eqb c "e" || Ascii.eqb c "E")%bool then
        match r with
        | String "-" r' => option_map Z.opp (allDigits 10 r')
        | String "+" r' => allDigits 10 r'
        | _ => allDigits 10 r
        end
      else None
  end.

(** StrUnsignedDecimalLiteral other than [Infinity]: the pair [(d, e)]
    of a literal whose mathematical value is [d * 10^e]. *)
Definition unsignedDecimalLiteral (s : string) : option (Z * Z) :=
  let '(iv, ic, r1) := readDigits 10 0 0 s in
  match r1 with
  | String "." r2 =>
      let '(mv, fc, r3) := readDigits 10 iv 0 r2 in
      match ic, fc with
      | O, O => None
      | _, _ =>
          match exponentPart r3 with
          | Some e => Some (mv, (e - Z.of_nat fc)%Z)
          | None => None
          end
      end
  | _ =>
      match ic with
      | O => None
      | S _ =>
          match exponentPart r1 with
          | Some e => Some (iv, e)
          | None => None
          end
      end
  end.

(** StrDecimalLiteral without its sign. *)
Definition unsignedLiteral (neg : bool) (s : string) : Number :=
  if String.eqb s "Infinity" then S754_infinity neg
  else match unsignedDecimalLiteral s with
       | Some (d, e) => ofDecimal neg d e
       | None => NaN
       end.

(** [toNumber s] is [+s] for a string [s]. *)
Definition toNumber (s : string) : Number :=
  let t := JsString.trim s in
  match t with
  | EmptyString => S754_zero false
  | String c r =>
      match nonDecimalLiteral t with
      | Some v => ofRatio false v 1
      | None =>
          if Ascii.eqb c "-" then unsignedLiteral true r
          else if Ascii.eqb c "+" then unsignedLiteral false r
          else unsignedLiteral false t
      end
  end.

(** [+v] for the result of a property lookup: a string, or [undefined]
    ([None]), whose Number is NaN. *)
Definition toNumberValue (v : option string) : Number :=
  match v with
  | Some s => toNumber s
  | None => NaN
  end.

(** The comparison [a >= b]: false as soon as an operand is NaN. *)
Definition ge (a b : Number) : bool :=
  match SFcompare a b with
  | Some Gt | Some Eq => true
  | _ => false
  end.

(** *** Number to string: Number::toString in radix 10 *)

(** The decimal digits of a non-negative integer. *)
Definition digitsOf (z : Z) : string :=
  NilZero.string_of_uint (N.to_uint (Z.to_N z)).

Fixpoint zeros (n : nat) : string :=
  match n with
  | O => EmptyString
  | S k => String "0" (zeros k)
  end.

(** [x = a / b] as a quotient of positive integers, for the finite
    positive Number of mantissa [m] and exponent [e]. *)
Definition ratioOf (m : positive) (e : Z) : Z * Z :=
  if (0 <=? e)%Z then (Zpos m * 2 ^ e, 1)%Z else (Zpos m, 2 ^ (- e))%Z.

(** The least [n' >= n] with [a / b < 10^(n' - n)], for [b <= a]: the
    denominator is multiplied by 10 until it exceeds [a]. *)
Fixpoint exponentUp (fuel : nat) (a b n : Z) : Z :=
  match fuel with
  | O => n
  | S f => if (a <? b)%Z then n else exponentUp f a (b * 10)%Z (n + 1)%Z
  end.

(** The least [n' <= n] with [a / b < 10^(n' - n)], for [a < b]: the
    numerator is multiplied by 10 as long as it stays below [b]. *)
Fixpoint exponentDown (fuel : nat) (a b n : Z) : Z :=
  match fuel with
  | O => n
  | S f => if (a * 10 <? b)%Z then exponentDown f (a * 10)%Z b (n - 1)%Z else n
  end.

(** The integer [n] with [10^(n-1) <= a / b < 10^n]; a binary64 value
    lies between [10^-324] and [10^309], within the 400 steps. *)
Definition decimalExponent (a b : Z) : Z :=
  if (a <? b)%Z then exponentDown 400 a b 0 else exponentUp 400 a b 0.

(** The shortest digit string that reads back as [x = a / b]: with
    [10^(n-1) <= x < 10^n], look for the least number [k] of digits for
    which one of the two [k]-digit decimals around [x], [lo * 10^(n-k)]
    and [(lo + 1) * 10^(n-k)], rounds to [x]; of two that do, the nearer
    one, and the even one when they are as near. The result is the
    integer [s] of the digits and the exponent [n]. *)
Fixpoint shortest (fuel : nat) (x : Number) (a b n k : Z) : Z * Z :=
  let p := (n - k)%Z in
  let num := if (0 <=? p)%Z then a else (a * 10 ^ (- p))%Z in
  let den := if (0 <=? p)%Z then (b * 10 ^ p)%Z else b in
  let lo := (num / den)%Z in
  let hi := (lo + 1)%Z in
  let r := (num mod den)%Z in
  let okLo := SFeqb (ofDecimal false lo p) x in
  let okHi := SFeqb (ofDecimal false hi p) x in
  let up := if (hi =? 10 ^ k)%Z then (hi / 10, n + 1)%Z else (hi, n) in
  match fuel with
  | O => (lo, n)
  | S f =>
      if okLo && okHi then
        match Z.compare (2 * r) den with
        | Lt => (lo, n)
        | Gt => up
        | Eq => if Z.even lo then (lo, n) else up
        end
      else if okLo then (lo, n)
      else if okHi then up
      else shortest f x a b n (k + 1)%Z
  end.

(** The text of the positive finite Number whose shortest digits are
    those of [s], with [10^(n-1) <= x < 10^n]. *)
Definition layout (s n : Z) : string :=
  let ds := digitsOf s in
  let k := Z.of_nat (String.length ds) in
  if ((k <=? n) && (n <=? 21))%Z then
    ds ++ zeros (Z.to_nat (n - k))
  else if ((0 <? n) && (n <=? 21))%Z then
    substring 0 (Z.to_nat n) ds ++ "." ++ substring (Z.to_nat n) (Z.to_nat (k - n)) ds
  else if ((-6 <? n) && (n <=? 0))%Z then
    "0." ++ zeros (Z.to_nat (- n)) ++ ds
  else
    let e := (n - 1)%Z in
    let sign := if (e <? 0)%Z then "-" else "+" in
    let mant := if (k =? 1)%Z then ds
                else substring 0 1 ds ++ "." ++ substring 1 (Z.to_nat (k - 1)) ds in
    mant ++ "e" ++ sign ++ digitsOf (Z.abs e).

(** [toString x] is the text of [x] in a template literal. *)
Definition toString (x : Number) : string :=
  match x with
  | S754_nan => "NaN"
  | S754_zero _ => "0"
  | S754_infinity neg => if neg then "-Infinity" else "Infinity"
  | S754_finite neg m e =>
      let '(a, b) := ratioOf m e in
      let n := decimalExponent a b in
      let '(s, n') := shortest 17 (S754_finite false m e) a b n 1 in
      (if neg then "-" else EmptyString) ++ layout s n'
  end.

(** The text of an array index plus one, as in [`$${idx + 1}`]: an
    index is below [2^32], where the Number is an integer printed with
    all its digits. *)
Definition indexToString (i : nat) : string :=
  NilEmpty.string_of_uint (Nat.to_uint i).

End JsNumber.

(** ** Exceptions and objects *)

(** The exceptions the modelled code can raise: [BadRequestError] of
    expressError.js with its message, and the [TypeError] of the run
    time for a property read or a method call on [undefined]. *)
Inductive Error : Type :=
| BadRequestError (message : string)
| TypeError.

(** The outcome of a call: a returned value or a thrown exception. *)
Inductive Completion (A : Type) : Type :=
| Return (a : A)
| Throw (e : Error).

Arguments Return {A} a.
Arguments Throw {A} e.

Definition bind {A B : Type} (c : Completion A) (k : A -> Completion B) : Completion B :=
  match c with
  | Return a => k a
  | Throw e => Throw e
  end.

Notation "x <- c ;; k" := (bind c (fun x => k))
  (at level 61, c at next level, right associativity).

(** [Array.prototype.every] with a callback that may throw: the
    callback runs on the elements in order, until it answers false or
    throws. *)
Fixpoint every {A : Type} (f : A -> Completion bool) (l : list A) : Completion bool :=
  match l with
  | [] => Return true
  | x :: r => b <- f x ;; if b then every f r else Return false
  end.

(** [Array.prototype.map] with a callback that may throw. *)
Fixpoint mapArray {A B : Type} (f : A -> Completion B) (l : list A) : Completion (list B) :=
  match l with
  | [] => Return []
  | x :: r => y <- f x ;; ys <- mapArray f r ;; Return (y :: ys)
  end.

(** [Array.prototype.map] with the index as second argument of the
    callback, counted from [i]. *)
Fixpoint mapIndexFrom {A B : Type} (i : nat) (f : A -> nat -> B) (l : list A) : list B :=
  match l with
  | [] => []
  | x :: r => f x i :: mapIndexFrom (S i) f r
  end.

Definition mapIndex {A B : Type} (f : A -> nat -> B) (l : list A) : list B :=
  mapIndexFrom 0 f l.

(** [Array.prototype.includes] on an array of strings. *)
Definition includes (l : list string) (x : string) : bool :=
  existsb (String.eqb x) l.

(** An object as the list of its own entries, in [Object.keys] order. *)
Definition Obj (V : Type) : Type := list (string * V).

Module Object.

Definition keys {V : Type} (o : Obj V) : list string := map fst o.

Definition values {V : Type} (o : Obj V) : list V := map snd o.

(** [o[k]]: the value of the own property [k], [None] for [undefined]. *)
Fixpoint get {V : Type} (o : Obj V) (k : string) : option V :=
  match o with
  | [] => None
  | (k', v) :: r => if String.eqb k k' then Some v else get r k
  end.

End Object.

(** [v.toLowerCase()] for the result of a property lookup: a TypeError
    on [undefined]. *)
Definition toLowerCaseValue (v : option string) : Completion string :=
  match v with
  | Some s => Return (JsString.toLowerCase s)
  | None => Throw TypeError
  end.

(** The text of a built-in function in a template literal, as V8
    prints it. *)
Definition nativeFunction (name : string) : string :=
  "function " ++ name ++ "() { [native code] }".

(** The members of [Object.prototype], which every ordinary object
    inherits, each with its text in a template literal: the functions,
    [constructor], which is the function [Object], and [__proto__],
    which reads as [Object.prototype] itself. *)
Definition objectPrototype : Obj string :=
  [ ("constructor", nativeFunction "Object");
    ("__defineGetter__", nativeFunction "__defineGetter__");
    ("__defineSetter__", nativeFunction "__defineSetter__");
    ("hasOwnProperty", nativeFunction "hasOwnProperty");
    ("__lookupGetter__", nativeFunction "__lookupGetter__");
    ("__lookupSetter__", nativeFunction "__lookupSetter__");
    ("isPrototypeOf", nativeFunction "isPrototypeOf");
    ("propertyIsEnumerable", nativeFunction "propertyIsEnumerable");
    ("toString", nativeFunction "toString");
    ("valueOf", nativeFunction "valueOf");
    ("__proto__", "[object Object]");
    ("toLocaleString", nativeFunction "toLocaleString") ].

(** What [o[k]] reads in an ordinary object with text values: the text
    the object holds under [k] itself, else the member of
    [Object.prototype] of that name, given by its text, else
    [undefined]. *)
Inductive Property : Type :=
| Own (text : string)
| Inherited (text : string)
| Undefined.

Definition readProperty (o : Obj string) (k : string) : Property :=
  match Object.get o k with
  | Some text => Own text
  | None =>
      match Object.get objectPrototype k with
      | Some text => Inherited text
      | None => Undefined
      end
  end.

(** The text of [a || b] in a template literal, for a property read
    [a] and a string [b]: [a] unless it is [undefined] or the empty
    string; an inherited member is an object or a function, which is
    true in a condition. *)
Definition orElse (a : Property) (b : string) : string :=
  match a with
  | Own (String c r) => String c r
  | Own EmptyString => b
  | Inherited text => text
  | Undefined => b
  end.

(** ** helpers/sql.js *)

(** The object [{ setCols, values }] returned by [sqlForPartialUpdate]. *)
Record UpdateSql (V : Type) : Type := {
  setCols : string;
  values : list V
}.

Arguments setCols {V} u.
Arguments values {V} u.

(** The assignment built for the key [colName] at index [idx]. *)
Definition assignment (jsToSql : Obj string) (colName : string) (idx : nat) : string :=
  JsString.dquote ++ orElse (readProperty jsToSql colName) colName ++ JsString.dquote
    ++ "=$" ++ JsNumber.indexToString (idx + 1).

Definition sqlForPartialUpdate {V : Type} (dataToUpdate : Obj V) (jsToSql : Obj string)
  : Completion (UpdateSql V) :=
  let keys := Object.keys dataToUpdate in
  if (List.length keys =? 0)%nat then Throw (BadRequestError "No data")
  else
    let cols := mapIndex (assignment jsToSql) keys in
    Return {| setCols := JsString.join ", " cols;
              values := Object.values dataToUpdate |}.

Section FilterQueries.

(** The constant [REJECTEDVALUES] of config.js, a file that is not part
    of the sources at hand: the functions below are parametric in it.
    Only its string members matter, as the values compared with them
    are strings. *)
Variable REJECTEDVALUES : list string.

(** [allowed.includes(key)], where [allowed] is the second argument of
    [sqlForFilterQueries]: an array, or [undefined] ([None]) when the
    caller passes no second argument. *)
Definition allowedIncludes (allowed : option (list string)) (key : string) : Completion bool :=
  match allowed with
  | Some l => Return (includes l key)
  | None => Throw TypeError
  end.

(** The callback of [keys.map] in [sqlForFilterQueries]. *)
Definition queryFragment (queries : Obj string) (colName : string) : Completion string :=
  if (String.eqb colName "minEmployees" || String.eqb colName "maxEmployees")%bool then
    Return (if String.eqb colName "minEmployees"
            then "num_employees >= "
                 ++ JsNumber.toString (JsNumber.toNumberValue (Object.get queries colName))
            else "num_employees <= "
                 ++ JsNumber.toString (JsNumber.toNumberValue (Object.get queries colName)))
  else if String.eqb colName "minSalary" then
    Return ("salary >= "
            ++ JsNumber.toString (JsNumber.toNumberValue (Object.get queries colName)))
  else if String.eqb colName "hasEquity" then
    lowered <- toLowerCaseValue (Object.get queries "hasEquity") ;;
    Return (if String.eqb lowered "true" then "equity > 0" else "equity >= 0")
  else
    lowered <- toLowerCaseValue (Object.get queries colName) ;;
    Return ("lower(" ++ colName ++ ") LIKE '%" ++ lowered ++ "%'").

Definition sqlForFilterQueries (queries : Obj string) (allowed : option (list string))
  : Completion string :=
  let keys := Object.keys queries in
  let values := Object.values queries in
  allKeysAllowed <- every (allowedIncludes allowed) keys ;;
  if negb allKeysAllowed then Throw (BadRequestError "invalid query parameter")
  else if existsb (includes REJECTEDVALUES) values
  then Throw (BadRequestError "invalid query value")
  else if (includes keys "minEmployees" && includes keys "maxEmployees")%bool
          && JsNumber.ge (JsNumber.toNumberValue (Object.get queries "minEmployees"))
                         (JsNumber.toNumberValue (Object.get queries "maxEmployees"))
  then Throw (BadRequestError "minEmployees cannot be larger than maxEmployees")
  else
    queryString <- mapArray (queryFragment queries) keys ;;
    Return (JsString.join " AND " queryString).

(** ** models/job.js *)

Definition newline : string := String (ascii_of_nat 10) EmptyString.

(** The statement of [Job.filter] around the compiled predicate. *)
Definition Job_sqlString (queryString : string) : string :=
  JsString.join newline
    [ "SELECT id, ";
      "                              title, ";
      "                              salary, ";
      "                              equity, ";
      "                              company_handle AS " ++ JsString.dquote ++ "companyHandle" ++ JsString.dquote;
      "                        FROM jobs";
      "                        WHERE " ++ queryString;
      "                        ORDER BY title" ].

(** [Job.filter] up to its database call: the statement handed to
    [db.query], or the exception thrown before. The compiler is called
    with one argument, so its [allowed] parameter is [undefined]. *)
Definition Job_filter (queries : Obj string) : Completion string :=
  queryString <- sqlForFilterQueries queries None ;;
  Return (Job_sqlString queryString).

End FilterQueries.

(** ** The specification's vocabulary *)

Definition invalidParameter : Error := BadRequestError "invalid query parameter".
Definition invalidValue : Error := BadRequestError "invalid query value".
Definition rangeViolation : Error :=
  BadRequestError "minEmployees cannot be larger than maxEmployees".
Definition noData : Error := BadRequestError "No data".

(** The fragment the specification's table gives for one entry of a
    filter request, by its key. *)
Definition fragmentOf (entry : string * string) : string :=
  let '(key, value) := entry in
  if String.eqb key "minEmployees" then
    "num_employees >= " ++ JsNumber.toString (JsNumber.toNumber value)
  else if String.eqb key "maxEmployees" then
    "num_employees <= " ++ JsNumber.toString (JsNumber.toNumber value)
  else if String.eqb key "minSalary" then
    "salary >= " ++ JsNumber.toString (JsNumber.toNumber value)
  else if String.eqb key "hasEquity" then
    if String.eqb (JsString.toLowerCase value) "true" then "equity > 0" else "equity >= 0"
  else
    "lower(" ++ key ++ ") LIKE '%" ++ JsString.toLowerCase value ++ "%'".

Arguments fragmentOf : simpl never.

(** The first two validation rules: every key is in the allow-list and
    no value is a rejected one. *)
Definition keysAllowed (queries : Obj string) (allowed : list string) : Prop :=
  forall key, In key (Object.keys queries) -> In key allowed.

Definition noRejectedValue (rejected : list string) (queries : Obj string) : Prop :=
  forall value, In value (Object.values queries) -> ~ In value rejected.

(** The range rule is broken: both bounds of the employee count are
    present and the minimum, as a Number, is [>=] the maximum. *)
Definition rangeBroken (queries : Obj string) : Prop :=
  In "minEmployees" (Object.keys queries)
  /\ In "maxEmployees" (Object.keys queries)
  /\ JsNumber.ge (JsNumber.toNumberValue (Object.get queries "minEmployees"))
                 (JsNumber.toNumberValue (Object.get queries "maxEmployees")) = true.

(** A valid filter request: it passes the three validation rules. *)
Definition validQueries (rejected : list string) (queries : Obj string)
  (allowed : list string) : Prop :=
  keysAllowed queries allowed /\ noRejectedValue rejected queries /\ ~ rangeBroken queries.

(** The column of an update as the specification words it: the name the
    map gives to the key if the key is present, else the key. *)
Definition columnIfPresent (nameMap : Obj string) (key : string) : string :=
  match Object.get nameMap key with
  | Some column => column
  | None => key
  end.

(** The column of an update for a map that may hold empty names: the
    name the map gives to the key if it gives a non-empty one, else the
    key. *)
Definition columnIfNonEmpty (nameMap : Obj string) (key : string) : string :=
  match Object.get nameMap key with
  | Some column => if String.eqb column EmptyString then key else column
  | None => key
  end.

(** The column of an update in full: the non-empty name the map itself
    gives to the key; else, for a key that names a member of
    [Object.prototype], the text of that member; else the key. *)
Definition columnOf (nameMap : Obj string) (key : string) : string :=
  match Object.get nameMap key with
  | Some column => if String.eqb column EmptyString then key else column
  | None =>
      match Object.get objectPrototype key with
      | Some text => text
      | None => key
      end
  end.

(** The names every ordinary object inherits. *)
Definition prototypeNames : list string := Object.keys objectPrototype.

(** A key whose column does not come from [Object.prototype]: the name
    map holds it itself, or it is none of the inherited names. *)
Definition ordinaryKey (nameMap : Obj string) (key : string) : Prop :=
  Object.get nameMap key <> None \/ ~ In key prototypeNames.

(** The placeholders [$1], ..., [$n]. *)
Definition placeholders (n : nat) : list string :=
  map (fun i => "$" ++ JsNumber.indexToString i) (seq 1 n).

(** One assignment of the specification: a quoted column, [=] and a
    placeholder. *)
Definition assignmentOf (column placeholder : string) : string :=
  JsString.dquote ++ column ++ JsString.dquote ++ "=" ++ placeholder.

(** Keys without repetition, as a test. *)
Fixpoint distinct (l : list string) : bool :=
  match l with
  | [] => true
  | x :: r => negb (includes r x) && distinct r
  end.

(** Modelled from the spec: config.js, which defines [REJECTEDVALUES],
    is not among the sources; the specification lists the empty
    string, a white-space string and the texts of null and undefined,
    and the tests of helpers/sql.js try the first three. The list is
    used for concrete runs only: the theorems hold for every list. *)
Definition rejectedValuesOfSpec : list string :=
  [EmptyString; " "; "null"; "undefined"].

(** The allow-list of the test suite of helpers/sql.js. *)
Definition allowedOfTests : list string :=
  ["name"; "minEmployees"; "maxEmployees"; "title"; "minSalary"; "hasEquity"].

(** A string of [n] spaces. *)
Fixpoint spaces (n : nat) : string :=
  match n with
  | O => EmptyString
  | S k => String " " (spaces k)
  end.

(** The greatest length of the strings of a list. *)
Fixpoint maxLength (l : list string) : nat :=
  match l with
  | [] => 0
  | x :: r => Nat.max (String.length x) (maxLength r)
  end.

(** Equality of two strings up to case. *)
Definition equalsIgnoreCase (a b : string) : bool :=
  String.eqb (JsString.toLowerCase a) (JsString.toLowerCase b).

(** The numeric filter keys, and the comparison each one opens its
    fragment with. *)
Definition numericKeys : list string := ["minEmployees"; "maxEmployees"; "minSalary"].

Definition comparisonOf (key : string) : string :=
  if String.eqb key "minEmployees" then "num_employees >= "
  else if String.eqb key "maxEmployees" then "num_employees <= "
  else "salary >= ".

(** The assignment list of an update request, given the rule that
    names the column of a key: the assignments of the keys, in key
    order, with the placeholders [$1], ..., [$n], joined by [", "]. *)
Definition setColsOf {V : Type} (column : Obj string -> string -> string)
  (data : Obj V) (nameMap : Obj string) : string :=
  JsString.join ", "
    (map (fun cp => assignmentOf (fst cp) (snd cp))
       (combine (map (column nameMap) (Object.keys data))
                (placeholders (List.length data)))).

(** ** models/job.js: the statements of [findAll] and [update] *)

(** The statement of [Job.findAll]. *)
Definition Job_findAllSql : string :=
  JsString.join newline
    [ "SELECT id,";
      "                  title,";
      "                  salary,";
      "                  equity,";
      "                  company_handle AS " ++ JsString.dquote ++ "companyHandle" ++ JsString.dquote;
      "           FROM jobs";
      "           ORDER BY title" ].

(** The statement of [Job.update] around the assignment list and the
    placeholder of the id. *)
Definition Job_updateSql (setCols idVarIdx : string) : string :=
  JsString.join newline
    [ "UPDATE jobs ";
      "                      SET " ++ setCols ++ " ";
      "                      WHERE id = " ++ idVarIdx ++ " ";
      "                      RETURNING id, ";
      "                                title, ";
      "                                salary, ";
      "                                equity, ";
      "                                company_handle AS " ++ JsString.dquote ++ "companyHandle" ++ JsString.dquote ].

(** What [Job.update] hands to [db.query]: the statement, with the
    placeholder it uses for the id, and the array of parameters. *)
Record UpdateQuery (V : Type) : Type := {
  idVarIdx : string;
  querySql : string;
  parameters : list V
}.

Arguments idVarIdx {V} u.
Arguments querySql {V} u.
Arguments parameters {V} u.

(** [Job.update] up to its call of [db.query]: the name map is the
    empty object, the placeholder of the id is [$] followed by the
    number of values plus one, and the id is appended to the values. *)
Definition Job_update {V : Type} (id : V) (data : Obj V) : Completion (UpdateQuery V) :=
  u <- sqlForPartialUpdate data [] ;;
  let idVar := "$" ++ JsNumber.indexToString (List.length (values u) + 1) in
  Return {| idVarIdx := idVar;
            querySql := Job_updateSql (setCols u) idVar;
            parameters := (values u ++ [id])%list |}.

(** ** routes/jobs.js: [GET /] *)

(** The handler of [GET /jobs] up to the database call of the model
    method it chooses: the statement issued, or the error passed to
    [next]. *)
Definition jobsGet (rejected : list string) (query : Obj string) : Completion string :=
  if negb (List.length (Object.keys query) =? 0)%nat
  then Job_filter rejected query
  else Return Job_findAllSql.

(** ** middleware/auth.js *)

(** The payload of a token, stored as [res.locals.user]. *)
Record User : Type := {
  username : string;
  isAdmin : bool
}.

(** What a middleware passes to [next]: nothing, an
    [UnauthorizedError] (with the message given to its constructor, if
    any), or an exception caught by its [try] block. *)
Inductive NextError : Type :=
| UnauthorizedError (message : option string)
| Caught (e : Error).

(** The part of the request the middleware reads: the authorization
    header ([None] when [req.headers] is undefined, [Some None] when
    the header is) and [req.params.username]. *)
Record Request : Type := {
  headers : option (option string);
  paramsUsername : option string
}.

(** A middleware: from the request and [res.locals.user] to the new
    [res.locals.user] and the argument of [next]. *)
Definition Middleware : Type :=
  Request -> option User -> option User * option NextError.

(** The truth value of a string or [undefined] in a condition. *)
Definition truthy (v : option string) : bool :=
  match v with
  | Some (String _ _) => true
  | _ => false
  end.

(** [authHeader.replace(/^[Bb]earer /, EmptyString)] *)
Definition stripBearer (s : string) : string :=
  match s with
  | String c r =>
      if ((Ascii.eqb c "B" || Ascii.eqb c "b") && String.prefix "earer " r)%bool
      then substring 6 (String.length r - 6) r
      else s
  | EmptyString => s
  end.

Section Authenticate.

(** [jwt.verify(token, SECRET_KEY)] of the jsonwebtoken library: the
    payload of the token, or [None] when it throws. *)
Variable verify : string -> option User.

Definition authenticateJWT : Middleware :=
  fun req user =>
    let authHeader :=
      match headers req with
      | Some h => h
      | None => None
      end in
    if truthy authHeader then
      match authHeader with
      | Some h =>
          match verify (JsString.trim (stripBearer h)) with
          | Some payload => (Some payload, None)
          | None => (user, None)
          end
      | None => (user, None)
      end
    else (user, None).

End Authenticate.

Definition ensureLoggedIn : Middleware :=
  fun req user =>
    match user with
    | Some _ => (user, None)
    | None => (user, Some (UnauthorizedError None))
    end.

Definition isAuthorized : Middleware :=
  fun req user =>
    if truthy (paramsUsername req) then
      match user with
      | None => (user, Some (Caught TypeError))
      | Some u =>
          if negb (String.eqb (username u)
                     (match paramsUsername req with Some p => p | None => EmptyString end))
          then
            if negb (isAdmin u)
            then (user, Some (UnauthorizedError (Some "User is not authorized")))
            else (user, None)
          else (user, None)
      end
    else
      match user with
      | None => (user, Some (Caught TypeError))
      | Some u =>
          if negb (isAdmin u)
          then (user, Some (UnauthorizedError (Some "Not an admin.")))
          else (user, None)
      end.

(** The middleware of a route, run in order by the router: the next
    one runs when [next] was called without argument, and the first
    error ends the run. *)
Fixpoint runMiddleware (ms : list Middleware) (req : Request) (user : option User)
  : option User * option NextError :=
  match ms with
  | [] => (user, None)
  | m :: r =>
      match m req user with
      | (user', None) => runMiddleware r req user'
      | (user', Some e) => (user', Some e)
      end
  end.

(** The two middleware every protected route of routes/users.js and
    routes/jobs.js registers before its handler. *)
Definition protectedRoute : list Middleware := [ensureLoggedIn; isAuthorized].

(** ** More vocabulary *)

(** The characters of the text of a Number: digits, the point, the
    exponent mark and signs, and the letters of NaN and Infinity. *)
Definition numberChar (c : ascii) : bool :=
  let n := nat_of_ascii c in
  (((48 <=? n) && (n <=? 57)) || existsb (Nat.eqb n) [46; 101; 43; 45; 78; 97; 73; 110; 102; 105; 116; 121])%nat.

Fixpoint allChars (p : ascii -> bool) (s : string) : bool :=
  match s with
  | EmptyString => true
  | String c r => p c && allChars p r
  end.

(** The four keys [sqlForFilterQueries] treats apart; every other key
    is a free-text key. *)
Definition specialKeys : list string :=
  ["minEmployees"; "maxEmployees"; "minSalary"; "hasEquity"].

(** Two entries with the same key that compile alike: the same value
    under a numeric key, the same value up to case under another key. *)
Definition alike (e1 e2 : string * string) : Prop :=
  fst e1 = fst e2
  /\ (if includes numericKeys (fst e1) then snd e1 = snd e2
      else JsString.toLowerCase (snd e1) = JsString.toLowerCase (snd e2)).

(** A user may pass a protected route: an administrator, or the user
    the route names by a non-empty [username] parameter. *)
Definition mayPass (req : Request) (u : User) : Prop :=
  isAdmin u = true
  \/ (truthy (paramsUsername req) = true /\ paramsUsername req = Some (username u)).

(** ** helpers/sql.js on values that are no text *)

(** A value of a parsed query string: a text, or the array or object
    of a repeated or bracketed parameter. Of a structured value the
    compiler observes three things: it is equal to no string, it has
    no [toLowerCase] method, and unary plus gives it a Number, which
    the value carries here. *)
Inductive QueryValue : Type :=
| TextValue (text : string)
| StructuredValue (number : JsNumber.Number).

(** [+v] for the result of a property lookup among such values. *)
Definition numberOfValue (v : option QueryValue) : JsNumber.Number :=
  match v with
  | Some (TextValue text) => JsNumber.toNumber text
  | Some (StructuredValue number) => number
  | None => JsNumber.NaN
  end.

(** [v.toLowerCase()]: a TypeError unless [v] is a text. *)
Definition lowerOfValue (v : option QueryValue) : Completion string :=
  match v with
  | Some (TextValue text) => Return (JsString.toLowerCase text)
  | _ => Throw TypeError
  end.

(** [REJECTEDVALUES.includes(val)] *)
Definition rejectedIncludes (rejected : list string) (v : QueryValue) : bool :=
  match v with
  | TextValue text => includes rejected text
  | StructuredValue _ => false
  end.

(** The callback of [keys.map], on such values. *)
Definition queryFragmentAny (queries : Obj QueryValue) (colName : string)
  : Completion string :=
  if (String.eqb colName "minEmployees" || String.eqb colName "maxEmployees")%bool then
    Return (if String.eqb colName "minEmployees"
            then "num_employees >= "
                 ++ JsNumber.toString (numberOfValue (Object.get queries colName))
            else "num_employees <= "
                 ++ JsNumber.toString (numberOfValue (Object.get queries colName)))
  else if String.eqb colName "minSalary" then
    Return ("salary >= "
            ++ JsNumber.toString (numberOfValue (Object.get queries colName)))
  else if String.eqb colName "hasEquity" then
    lowered <- lowerOfValue (Object.get queries "hasEquity") ;;
    Return (if String.eqb lowered "true" then "equity > 0" else "equity >= 0")
  else
    lowered <- lowerOfValue (Object.get queries colName) ;;
    Return ("lower(" ++ colName ++ ") LIKE '%" ++ lowered ++ "%'").

(** [sqlForFilterQueries] on such values, statement by statement as
    on text. *)
Definition sqlForFilterQueriesAny (REJECTEDVALUES : list string)
  (queries : Obj QueryValue) (allowed : option (list string)) : Completion string :=
  let keys := Object.keys queries in
  let values := Object.values queries in
  allKeysAllowed <- every (allowedIncludes allowed) keys ;;
  if negb allKeysAllowed then Throw (BadRequestError "invalid query parameter")
  else if existsb (rejectedIncludes REJECTEDVALUES) values
  then Throw (BadRequestError "invalid query value")
  else if (includes keys "minEmployees" && includes keys "maxEmployees")%bool
          && JsNumber.ge (numberOfValue (Object.get queries "minEmployees"))
                         (numberOfValue (Object.get queries "maxEmployees"))
  then Throw (BadRequestError "minEmployees cannot be larger than maxEmployees")
  else
    queryString <- mapArray (queryFragmentAny queries) keys ;;
    Return (JsString.join " AND " queryString).

(** A request of texts, among the requests of any values. *)
Definition asValues (queries : Obj string) : Obj QueryValue :=
  map (fun entry => (fst entry, TextValue (snd entry))) queries.


(** * Properties *)

(** ** The run time and the test suite, on examples *)

Example toLowerCase_example :
  JsString.toLowerCase "AnDeRSON Jr." = "anderson jr.".
Proof. reflexivity. Qed.

Example join_example :
  JsString.join ", " ["a"; "b"; "c"] = "a, b, c" /\ JsString.join ", " [] = EmptyString.
Proof. split; reflexivity. Qed.

(** Unary plus followed by the conversion back to text, on integers,
    padded and signed literals, other radices, fractions, exponents,
    the limits of the format and texts that are no numeric literal. *)
Example number_round_trips :
  map (fun s => JsNumber.toString (JsNumber.toNumber s))
    ["200"; "00200"; " 12 "; "-5"; "+7"; "0x10"; "0b101"; "1e3"; "1.50"; ".5";
     "0.1"; "0.000001"; "1e-7"; "123456789012345680000"; "1e21";
     "9007199254740993"; "5e-324"; "1e400"; "-Infinity"; "-0"]
  = ["200"; "200"; "12"; "-5"; "7"; "16"; "5"; "1000"; "1.5"; "0.5";
     "0.1"; "0.000001"; "1e-7"; "123456789012345680000"; "1e+21";
     "9007199254740992"; "5e-324"; "Infinity"; "-Infinity"; "0"].
Proof. vm_compute. reflexivity. Qed.

Example not_numeric :
  map JsNumber.toNumber ["abc"; "12px"; "1,000"; "1e"; "."; "0x"; "-0x10"; "1 2"; "infinity"]
  = repeat JsNumber.NaN 9.
Proof. vm_compute. reflexivity. Qed.

Example blank_is_zero :
  map (fun s => JsNumber.toString (JsNumber.toNumber s)) [EmptyString; " "; "   "]
  = ["0"; "0"; "0"].
Proof. vm_compute. reflexivity. Qed.

Example ge_examples :
  JsNumber.ge (JsNumber.toNumber "400") (JsNumber.toNumber "300") = true
  /\ JsNumber.ge (JsNumber.toNumber "300") (JsNumber.toNumber "300") = true
  /\ JsNumber.ge (JsNumber.toNumber "200") (JsNumber.toNumber "5000") = false
  /\ JsNumber.ge (JsNumber.toNumber "1e3") (JsNumber.toNumber "999.5") = true
  /\ JsNumber.ge (JsNumber.toNumber "abc") (JsNumber.toNumber "1") = false
  /\ JsNumber.ge (JsNumber.toNumber "1") (JsNumber.toNumber "abc") = false.
Proof. vm_compute. repeat split. Qed.

(** The tests of helpers/sql.js that expect a result. *)
Example test_partial_update :
  sqlForPartialUpdate
    [("password", inl "secretpassword"); ("firstName", inl "Bobby");
     ("lastName", inl "McGee"); ("isAdmin", inr true); ("email", inl "hello@bm.com")]
    [("firstName", "first_name"); ("lastName", "last_name"); ("isAdmin", "is_admin")]
  = Return {| setCols := JsString.join ", "
                           [assignmentOf "password" "$1"; assignmentOf "first_name" "$2";
                            assignmentOf "last_name" "$3"; assignmentOf "is_admin" "$4";
                            assignmentOf "email" "$5"];
              values := [inl "secretpassword"; inl "Bobby"; inl "McGee"; inr true;
                         inl "hello@bm.com"] |}.
Proof. vm_compute. reflexivity. Qed.

Example test_filter_queries :
  map (fun queries => sqlForFilterQueries rejectedValuesOfSpec queries (Some allowedOfTests))
    [ [("name", "llc")];
      [("name", "AnDeRSON")];
      [("minEmployees", "100")];
      [("maxEmployees", "7000")];
      [("title", "jr. engineer")];
      [("minSalary", "50000")];
      [("hasEquity", "true")];
      [("hasEquity", "false")] ]
  = map Return
      [ "lower(name) LIKE '%llc%'";
        "lower(name) LIKE '%anderson%'";
        "num_employees >= 100";
        "num_employees <= 7000";
        "lower(title) LIKE '%jr. engineer%'";
        "salary >= 50000";
        "equity > 0";
        "equity >= 0" ].
Proof. vm_compute. reflexivity. Qed.

(** ** Arrays and objects *)

Lemma includes_In (l : list string) (x : string) :
  includes l x = true <-> In x l.
Proof.
  unfold includes. rewrite existsb_exists. split.
  - intros [y [Hy Heq]]. apply String.eqb_eq in Heq. now subst.
  - intros H. exists x. split; [assumption | apply String.eqb_refl].
Qed.

Lemma includes_not_In (l : list string) (x : string) :
  includes l x = false <-> ~ In x l.
Proof.
  rewrite <- includes_In. destruct (includes l x); split; congruence.
Qed.

Lemma distinct_NoDup (l : list string) : distinct l = true -> NoDup l.
Proof.
  induction l as [| x r IH]; simpl; intros H.
  - constructor.
  - apply andb_prop in H. destruct H as [Hx Hr]. constructor.
    + apply includes_not_In. now destruct (includes r x).
    + now apply IH.
Qed.

(** With an array as allow-list, [keys.every] is total and is the
    conjunction of the membership tests. *)
Lemma every_allowed (allowed : list string) (ks : list string) :
  every (allowedIncludes (Some allowed)) ks = Return (forallb (includes allowed) ks).
Proof.
  induction ks as [| k r IH]; simpl; [reflexivity |].
  destruct (includes allowed k); simpl; [exact IH | reflexivity].
Qed.

(** Without an allow-list, the first key already raises. *)
Lemma every_undefined (k : string) (r : list string) :
  every (allowedIncludes None) (k :: r) = Throw TypeError.
Proof. reflexivity. Qed.

Lemma keysAllowed_forallb (queries : Obj string) (allowed : list string) :
  keysAllowed queries allowed <-> forallb (includes allowed) (Object.keys queries) = true.
Proof.
  unfold keysAllowed. rewrite forallb_forall. split; intros H k Hk.
  - apply includes_In. now apply H.
  - apply includes_In. now apply H.
Qed.

Lemma noRejectedValue_existsb (rejected : list string) (queries : Obj string) :
  noRejectedValue rejected queries
  <-> existsb (includes rejected) (Object.values queries) = false.
Proof.
  unfold noRejectedValue. split.
  - intros H. destruct (existsb _ _) eqn:E; [| reflexivity].
    apply existsb_exists in E. destruct E as [v [Hv Hin]].
    apply includes_In in Hin. now elim (H v Hv).
  - intros E v Hv Hin.
    assert (existsb (includes rejected) (Object.values queries) = true) as E'.
    { apply existsb_exists. exists v. split; [assumption | now apply includes_In]. }
    congruence.
Qed.

(** The range test of the code is the broken range rule. *)
Lemma rangeBroken_test (queries : Obj string) :
  rangeBroken queries <->
  (includes (Object.keys queries) "minEmployees"
   && includes (Object.keys queries) "maxEmployees")%bool
  && JsNumber.ge (JsNumber.toNumberValue (Object.get queries "minEmployees"))
                 (JsNumber.toNumberValue (Object.get queries "maxEmployees")) = true.
Proof.
  unfold rangeBroken. rewrite !andb_true_iff, !includes_In. tauto.
Qed.

(** Looking up a key of the object finds a value, and for an object
    without repeated keys it finds the value of the entry. *)
Lemma get_of_key {V : Type} (o : Obj V) (k : string) :
  In k (Object.keys o) -> exists v, Object.get o k = Some v /\ In (k, v) o.
Proof.
  induction o as [| [k' v'] r IH]; simpl; [tauto |].
  intros H. destruct (String.eqb k k') eqn:E.
  - apply String.eqb_eq in E. subst. exists v'. auto.
  - destruct H as [H | H].
    + subst. rewrite String.eqb_refl in E. discriminate.
    + destruct (IH H) as [v [Hv Hin]]. exists v. auto.
Qed.

Lemma get_of_entry {V : Type} (o : Obj V) (k : string) (v : V) :
  NoDup (Object.keys o) -> In (k, v) o -> Object.get o k = Some v.
Proof.
  induction o as [| [k' v'] r IH]; simpl; [tauto |].
  intros Hnd Hin. inversion Hnd as [| ? ? Hnot Hnd']; subst.
  destruct Hin as [Heq | Hin].
  - injection Heq as -> ->. now rewrite String.eqb_refl.
  - destruct (String.eqb k k') eqn:E.
    + apply String.eqb_eq in E. subst. elim Hnot.
      change k' with (fst (k', v)). now apply in_map.
    + now apply IH.
Qed.

Lemma get_Some_key {V : Type} (o : Obj V) (k : string) (v : V) :
  Object.get o k = Some v -> In k (Object.keys o).
Proof.
  induction o as [| [k' v'] r IH]; simpl; [discriminate |].
  destruct (String.eqb k k') eqn:E.
  - apply String.eqb_eq in E. auto.
  - auto.
Qed.

(** ** The filter compiler, phase by phase *)

(** On a key the object holds, the callback of [keys.map] returns the
    fragment of the specification's table. *)
Lemma queryFragment_get (queries : Obj string) (k v : string) :
  Object.get queries k = Some v ->
  queryFragment queries k = Return (fragmentOf (k, v)).
Proof.
  intros Hget. unfold queryFragment, fragmentOf.
  destruct (String.eqb k "minEmployees") eqn:Emin; simpl.
  - now rewrite Hget.
  - destruct (String.eqb k "maxEmployees") eqn:Emax; simpl.
    + now rewrite Hget.
    + destruct (String.eqb k "minSalary") eqn:Esal.
      * now rewrite Hget.
      * destruct (String.eqb k "hasEquity") eqn:Eeq.
        -- apply String.eqb_eq in Eeq. subst k. now rewrite Hget.
        -- now rewrite Hget.
Qed.

Lemma mapArray_cons {A B : Type} (f : A -> Completion B) (x : A) (r : list A) :
  mapArray f (x :: r) = (y <- f x ;; ys <- mapArray f r ;; Return (y :: ys)).
Proof. reflexivity. Qed.

Lemma mapArray_fragments (queries : Obj string) (l : Obj string) :
  (forall k v, In (k, v) l -> Object.get queries k = Some v) ->
  mapArray (queryFragment queries) (Object.keys l) = Return (map fragmentOf l).
Proof.
  induction l as [| [k v] r IH]; intros H; [reflexivity |].
  change (Object.keys ((k, v) :: r)) with (k :: Object.keys r).
  rewrite mapArray_cons.
  rewrite (queryFragment_get queries k v) by (apply H; now left).
  rewrite IH by (intros; apply H; now right).
  reflexivity.
Qed.

(** The callback never throws on a key of the object. *)
Lemma mapArray_keys_total (queries : Obj string) (ks : list string) :
  (forall k, In k ks -> In k (Object.keys queries)) ->
  exists fragments, mapArray (queryFragment queries) ks = Return fragments.
Proof.
  induction ks as [| k r IH]; simpl; intros H.
  - now exists [].
  - destruct (get_of_key queries k (H k (or_introl eq_refl))) as [v [Hv _]].
    rewrite (queryFragment_get queries k v Hv).
    destruct IH as [fs Hfs]; [intros; apply H; now right |].
    rewrite Hfs. now exists (fragmentOf (k, v) :: fs).
Qed.

Lemma mapArray_Forall2 {A B : Type} (f : A -> Completion B) (l : list A) (ys : list B) :
  mapArray f l = Return ys -> Forall2 (fun x y => f x = Return y) l ys.
Proof.
  revert ys. induction l as [| x r IH]; simpl; intros ys H.
  - injection H as <-. constructor.
  - destruct (f x) as [y |] eqn:Ex; simpl in H; [| discriminate].
    destruct (mapArray f r) as [zs |] eqn:Er; simpl in H; [| discriminate].
    injection H as <-. constructor; [assumption | now apply IH].
Qed.

(** Once the first two validations have passed, the outcome depends on
    the range rule alone. *)
Lemma sqlForFilterQueries_checked (rejected : list string) (queries : Obj string)
  (allowed : list string) :
  keysAllowed queries allowed ->
  noRejectedValue rejected queries ->
  sqlForFilterQueries rejected queries (Some allowed) =
  if (includes (Object.keys queries) "minEmployees"
      && includes (Object.keys queries) "maxEmployees")%bool
     && JsNumber.ge (JsNumber.toNumberValue (Object.get queries "minEmployees"))
                    (JsNumber.toNumberValue (Object.get queries "maxEmployees"))
  then Throw rangeViolation
  else
    queryString <- mapArray (queryFragment queries) (Object.keys queries) ;;
    Return (JsString.join " AND " queryString).
Proof.
  intros Hk Hv. unfold sqlForFilterQueries.
  rewrite every_allowed. simpl.
  apply keysAllowed_forallb in Hk. rewrite Hk. simpl.
  apply noRejectedValue_existsb in Hv. rewrite Hv.
  reflexivity.
Qed.

(** Whenever the compiler returns, its text is the join of what the
    callback returned on each key. *)
Lemma sqlForFilterQueries_returns (rejected : list string) (queries : Obj string)
  (allowed : option (list string)) (text : string) :
  sqlForFilterQueries rejected queries allowed = Return text ->
  exists fragments,
    Forall2 (fun k f => queryFragment queries k = Return f) (Object.keys queries) fragments
    /\ text = JsString.join " AND " fragments.
Proof.
  unfold sqlForFilterQueries. intros H.
  destruct (every (allowedIncludes allowed) (Object.keys queries)) as [b |]; simpl in H;
    [| discriminate].
  destruct (negb b); [discriminate |].
  destruct (existsb _ _); [discriminate |].
  match type of H with (if ?c then _ else _) = _ => destruct c end; [discriminate |].
  destruct (mapArray (queryFragment queries) (Object.keys queries)) as [fs |] eqn:Em;
    simpl in H; [| discriminate].
  injection H as <-. exists fs. split; [now apply mapArray_Forall2 | reflexivity].
Qed.

(** The allow-list test comes first: a key outside the list decides
    the outcome, whatever the values are. *)
Lemma key_not_allowed (rejected : list string) (queries : Obj string)
  (allowed : list string) (key : string) :
  In key (Object.keys queries) ->
  ~ In key allowed ->
  sqlForFilterQueries rejected queries (Some allowed) = Throw invalidParameter.
Proof.
  intros Hin Hnot. unfold sqlForFilterQueries.
  rewrite every_allowed. simpl.
  destruct (forallb (includes allowed) (Object.keys queries)) eqn:E; [| reflexivity].
  rewrite forallb_forall in E. specialize (E key Hin).
  apply includes_In in E. contradiction.
Qed.

(** A valid request compiles to the fragments of its entries. *)
Lemma compile_valid (rejected : list string) (queries : Obj string)
  (allowed : list string) :
  NoDup (Object.keys queries) ->
  keysAllowed queries allowed ->
  noRejectedValue rejected queries ->
  ~ rangeBroken queries ->
  sqlForFilterQueries rejected queries (Some allowed)
  = Return (JsString.join " AND " (map fragmentOf queries)).
Proof.
  intros Hnd Hk Hv Hr.
  rewrite (sqlForFilterQueries_checked rejected queries allowed Hk Hv).
  destruct (_ && _)%bool eqn:Etest.
  - elim Hr. now apply rangeBroken_test.
  - rewrite (mapArray_fragments queries queries); [reflexivity |].
    intros k v Hin. now apply get_of_entry.
Qed.

(** ** The claims on the filter compiler *)

(** C1. For every valid filter request (all keys in the allow-list, no
    rejected value, range rule kept), [sqlForFilterQueries] returns the
    fragments of the entries, one per key in key order, joined by
    [" AND "]; for the request [{name: 'anderson', minEmployees: '200',
    maxEmployees: '5000'}] that text is exactly
    [lower(name) LIKE '%anderson%' AND num_employees >= 200 AND
    num_employees <= 5000]. *)
Theorem sqlForFilterQueries_valid (rejected : list string) (queries : Obj string)
  (allowed : list string) :
  NoDup (Object.keys queries) ->
  validQueries rejected queries allowed ->
  sqlForFilterQueries rejected queries (Some allowed)
  = Return (JsString.join " AND " (map fragmentOf queries))
  /\ (queries = [("name", "anderson"); ("minEmployees", "200"); ("maxEmployees", "5000")] ->
      sqlForFilterQueries rejected queries (Some allowed)
      = Return "lower(name) LIKE '%anderson%' AND num_employees >= 200 AND num_employees <= 5000").
Proof.
  intros Hnd [Hk [Hv Hr]].
  pose proof (compile_valid rejected queries allowed Hnd Hk Hv Hr) as Hgen.
  split; [exact Hgen |].
  intros ->. rewrite Hgen. vm_compute. reflexivity.
Qed.

Lemma sqlForFilterQueries_valid_witness :
  sqlForFilterQueries rejectedValuesOfSpec
    [("name", "anderson"); ("minEmployees", "200"); ("maxEmployees", "5000")]
    (Some allowedOfTests)
  = Return "lower(name) LIKE '%anderson%' AND num_employees >= 200 AND num_employees <= 5000".
Proof.
  refine (proj2 (sqlForFilterQueries_valid rejectedValuesOfSpec _ allowedOfTests _ _) eq_refl).
  - apply distinct_NoDup. reflexivity.
  - split; [| split].
    + apply keysAllowed_forallb. reflexivity.
    + apply noRejectedValue_existsb. reflexivity.
    + intros H. apply rangeBroken_test in H. vm_compute in H. discriminate H.
Defined.

(** C2. A filter request with a key outside the supplied allow-list
    fails with the "invalid query parameter" BadRequestError: no text
    is returned, so no fragment is produced. *)
Theorem sqlForFilterQueries_key_not_allowed (rejected : list string)
  (queries : Obj string) (allowed : list string) (key : string) :
  In key (Object.keys queries) ->
  ~ In key allowed ->
  sqlForFilterQueries rejected queries (Some allowed) = Throw invalidParameter
  /\ forall text, sqlForFilterQueries rejected queries (Some allowed) <> Return text.
Proof.
  intros Hin Hnot.
  rewrite (key_not_allowed rejected queries allowed key Hin Hnot).
  split; [reflexivity | discriminate].
Qed.

Lemma sqlForFilterQueries_key_not_allowed_witness :
  sqlForFilterQueries rejectedValuesOfSpec
    [("name", "llc"); ("cats", "200"); ("maxEmployees", "300")] (Some allowedOfTests)
  = Throw (BadRequestError "invalid query parameter").
Proof.
  refine (proj1 (sqlForFilterQueries_key_not_allowed rejectedValuesOfSpec
                   [("name", "llc"); ("cats", "200"); ("maxEmployees", "300")]
                   allowedOfTests "cats" _ _)).
  - simpl. auto.
  - apply includes_not_In. reflexivity.
Defined.

(** C3. [Job.filter] passes no allow-list: for every non-empty filter
    request the allow-list test of [sqlForFilterQueries] raises a
    TypeError on the first key, whatever the keys and values are, so no
    other validation runs and no fragment is built. *)
Theorem Job_filter_TypeError (rejected : list string) (queries : Obj string) :
  queries <> [] ->
  sqlForFilterQueries rejected queries None = Throw TypeError
  /\ Job_filter rejected queries = Throw TypeError
  /\ forall message, Job_filter rejected queries <> Throw (BadRequestError message).
Proof.
  intros Hne. destruct queries as [| [k v] r]; [congruence |].
  repeat split. discriminate.
Qed.

Lemma Job_filter_TypeError_witness :
  Job_filter rejectedValuesOfSpec [("title", "manager"); ("minSalary", "40000")]
  = Throw TypeError.
Proof.
  refine (proj1 (proj2 (Job_filter_TypeError rejectedValuesOfSpec
                          [("title", "manager"); ("minSalary", "40000")] _))).
  discriminate.
Defined.

(** C9. The empty filter request compiles to the empty string, with
    any allow-list and even with none. *)
Theorem sqlForFilterQueries_empty (rejected : list string) (allowed : option (list string)) :
  sqlForFilterQueries rejected [] allowed = Return EmptyString.
Proof. reflexivity. Qed.

(** The outcome of the three validations, whatever the request is:
    each failed validation is a BadRequestError, in the order of the
    code. *)
Lemma validation_outcome (rejected : list string) (queries : Obj string)
  (allowed : list string) :
  (~ keysAllowed queries allowed
   /\ sqlForFilterQueries rejected queries (Some allowed) = Throw invalidParameter)
  \/ (keysAllowed queries allowed /\ ~ noRejectedValue rejected queries
      /\ sqlForFilterQueries rejected queries (Some allowed) = Throw invalidValue)
  \/ (keysAllowed queries allowed /\ noRejectedValue rejected queries
      /\ rangeBroken queries
      /\ sqlForFilterQueries rejected queries (Some allowed) = Throw rangeViolation)
  \/ (keysAllowed queries allowed /\ noRejectedValue rejected queries
      /\ ~ rangeBroken queries
      /\ exists fragments,
           mapArray (queryFragment queries) (Object.keys queries) = Return fragments
           /\ sqlForFilterQueries rejected queries (Some allowed)
              = Return (JsString.join " AND " fragments)).
Proof.
  unfold sqlForFilterQueries. rewrite every_allowed. simpl.
  rewrite (keysAllowed_forallb queries allowed).
  destruct (forallb (includes allowed) (Object.keys queries)); simpl.
  2: { left. split; [discriminate | reflexivity]. }
  right. rewrite (noRejectedValue_existsb rejected queries).
  destruct (existsb (includes rejected) (Object.values queries)).
  { left. repeat split; [discriminate]. }
  right. rewrite (rangeBroken_test queries).
  destruct (_ && _)%bool.
  { left. repeat split. }
  right. repeat split; [discriminate |].
  destruct (mapArray_keys_total queries (Object.keys queries)) as [fs Hfs]; [auto |].
  exists fs. rewrite Hfs. split; reflexivity.
Qed.

(** C4, as amended. A filter request that holds both [minEmployees]
    and [maxEmployees], the minimum being [>=] the maximum as Numbers,
    fails with a BadRequestError; it is the range-violation one when
    all the keys are allowed and no value is rejected, the checks that
    run first. Conversely the range violation is raised for such a
    request only: no value of [minSalary] raises it. *)
Theorem range_violation (rejected : list string) (queries : Obj string)
  (allowed : list string) :
  (rangeBroken queries ->
   (exists message,
      sqlForFilterQueries rejected queries (Some allowed) = Throw (BadRequestError message))
   /\ (keysAllowed queries allowed ->
       noRejectedValue rejected queries ->
       sqlForFilterQueries rejected queries (Some allowed) = Throw rangeViolation))
  /\ (sqlForFilterQueries rejected queries (Some allowed) = Throw rangeViolation ->
      rangeBroken queries).
Proof.
  destruct (validation_outcome rejected queries allowed)
    as [[Hk E] | [[Hk [Hv E]] | [[Hk [Hv [Hr E]]] | [Hk [Hv [Hr [fs [_ E]]]]]]]];
    rewrite E; (split; [intros Hb; split |]);
    try (eexists; reflexivity); try tauto; try discriminate.
Qed.

Lemma range_violation_witness :
  sqlForFilterQueries rejectedValuesOfSpec
    [("name", "llc"); ("minEmployees", "400"); ("maxEmployees", "300")]
    (Some allowedOfTests)
  = Throw (BadRequestError "minEmployees cannot be larger than maxEmployees")
  /\ sqlForFilterQueries rejectedValuesOfSpec
       [("minSalary", "90000"); ("maxEmployees", "10")] (Some allowedOfTests)
     <> Throw rangeViolation.
Proof.
  split.
  - apply (range_violation rejectedValuesOfSpec
             [("name", "llc"); ("minEmployees", "400"); ("maxEmployees", "300")]
             allowedOfTests).
    + apply rangeBroken_test. vm_compute. reflexivity.
    + apply keysAllowed_forallb. reflexivity.
    + apply noRejectedValue_existsb. reflexivity.
  - intros H.
    apply (range_violation rejectedValuesOfSpec
             [("minSalary", "90000"); ("maxEmployees", "10")] allowedOfTests) in H.
    apply rangeBroken_test in H. discriminate H.
Defined.

(** C4 as stated fails: a request that breaks the range rule and also
    holds a key outside the allow-list fails with the "invalid query
    parameter" error, not with the range violation. *)
Lemma range_violation_preempted :
  rangeBroken [("cats", "200"); ("minEmployees", "400"); ("maxEmployees", "300")]
  /\ sqlForFilterQueries rejectedValuesOfSpec
       [("cats", "200"); ("minEmployees", "400"); ("maxEmployees", "300")]
       (Some allowedOfTests)
     = Throw invalidParameter
  /\ sqlForFilterQueries rejectedValuesOfSpec
       [("cats", "200"); ("minEmployees", "400"); ("maxEmployees", "300")]
       (Some allowedOfTests)
     <> Throw rangeViolation.
Proof.
  split; [| split].
  - apply rangeBroken_test. vm_compute. reflexivity.
  - vm_compute. reflexivity.
  - vm_compute. discriminate.
Qed.

(** ** Rejected values *)

Lemma whitespaceOnly_spaces (n : nat) : JsString.whitespaceOnly (spaces n) = true.
Proof. induction n as [| n IH]; simpl; [reflexivity | exact IH]. Qed.

Lemma length_spaces (n : nat) : String.length (spaces n) = n.
Proof. induction n as [| n IH]; simpl; [reflexivity | now rewrite IH]. Qed.

Lemma toLowerCase_spaces (n : nat) : JsString.toLowerCase (spaces n) = spaces n.
Proof. induction n as [| n IH]; simpl; [reflexivity | now rewrite IH]. Qed.

Lemma length_le_maxLength (l : list string) (x : string) :
  In x l -> String.length x <= maxLength l.
Proof.
  induction l as [| y r IH]; simpl; [tauto |].
  intros [-> | H]; [apply Nat.le_max_l |].
  specialize (IH H). lia.
Qed.

(** A finite list of rejected values misses some white-space string. *)
Lemma spaces_not_rejected (rejected : list string) :
  ~ In (spaces (S (maxLength rejected))) rejected.
Proof.
  intros H. apply length_le_maxLength in H. rewrite length_spaces in H. lia.
Qed.

(** A free-text value that is not rejected is compiled, lower-cased,
    into a LIKE pattern. *)
Lemma compile_name (rejected : list string) (value : string) :
  ~ In value rejected ->
  sqlForFilterQueries rejected [("name", value)] (Some ["name"])
  = Return ("lower(name) LIKE '%" ++ JsString.toLowerCase value ++ "%'").
Proof.
  intros Hnot.
  rewrite (compile_valid rejected [("name", value)] ["name"]).
  - reflexivity.
  - apply distinct_NoDup. reflexivity.
  - apply keysAllowed_forallb. reflexivity.
  - intros v [<- | []]. exact Hnot.
  - intros H. apply rangeBroken_test in H. discriminate H.
Qed.

(** Whatever the rejected values are, one of them under a key outside
    the allow-list is reported as an invalid parameter. *)
Lemma rejected_value_preempted (rejected : list string) (value : string) :
  In value rejected ->
  sqlForFilterQueries rejected [("cats", value)] (Some allowedOfTests)
  = Throw invalidParameter.
Proof.
  intros _. apply (key_not_allowed rejected [("cats", value)] allowedOfTests "cats").
  - simpl. auto.
  - apply includes_not_In. reflexivity.
Qed.

(** C5, as amended. A filter request one of whose values is a member
    of [REJECTEDVALUES] fails with a BadRequestError, whichever key
    carries the value; it is the "invalid query value" one when all
    the keys are allowed, the check that runs first. Membership is
    equality with a listed string: whatever the list is, some
    white-space string is not in it, and is compiled like any other
    text. *)
Theorem rejected_value_error (rejected : list string) (queries : Obj string)
  (allowed : list string) (value : string) :
  In value (Object.values queries) ->
  In value rejected ->
  (exists message,
     sqlForFilterQueries rejected queries (Some allowed) = Throw (BadRequestError message))
  /\ (keysAllowed queries allowed ->
      sqlForFilterQueries rejected queries (Some allowed) = Throw invalidValue)
  /\ exists blank,
       JsString.whitespaceOnly blank = true
       /\ ~ In blank rejected
       /\ sqlForFilterQueries rejected [("name", blank)] (Some ["name"])
          = Return ("lower(name) LIKE '%" ++ blank ++ "%'").
Proof.
  intros Hin Hrej.
  assert (~ noRejectedValue rejected queries) as Hsome.
  { intros Hno. exact (Hno value Hin Hrej). }
  split; [| split].
  - destruct (validation_outcome rejected queries allowed)
      as [[Hk E] | [[Hk [Hv E]] | [[Hk [Hv _]] | [Hk [Hv _]]]]];
      try contradiction; rewrite E; eexists; reflexivity.
  - intros Hk.
    destruct (validation_outcome rejected queries allowed)
      as [[Hk' E] | [[_ [Hv E]] | [[_ [Hv _]] | [_ [Hv _]]]]];
      try contradiction. exact E.
  - exists (spaces (S (maxLength rejected))).
    split; [apply whitespaceOnly_spaces |].
    split; [apply spaces_not_rejected |].
    rewrite compile_name by apply spaces_not_rejected.
    now rewrite toLowerCase_spaces.
Qed.

Lemma rejected_value_error_witness :
  sqlForFilterQueries rejectedValuesOfSpec [("name", " ")] (Some allowedOfTests)
  = Throw (BadRequestError "invalid query value").
Proof.
  apply (rejected_value_error rejectedValuesOfSpec [("name", " ")] allowedOfTests " ").
  - simpl. auto.
  - simpl. auto.
  - apply keysAllowed_forallb. reflexivity.
Defined.

(** C5 as stated fails on two counts: a rejected value under a key
    outside the allow-list gives the "invalid query parameter" error,
    and a string of two spaces, which the list of the specification
    does not hold, is compiled. *)
Lemma rejected_value_not_always_reported :
  sqlForFilterQueries rejectedValuesOfSpec [("cats", EmptyString)] (Some allowedOfTests)
  = Throw invalidParameter
  /\ invalidParameter <> invalidValue
  /\ JsString.whitespaceOnly "  " = true
  /\ sqlForFilterQueries rejectedValuesOfSpec [("name", "  ")] (Some allowedOfTests)
     = Return "lower(name) LIKE '%  %'".
Proof.
  repeat split; try (vm_compute; reflexivity). discriminate.
Qed.

(** ** The equity flag and the numeric keys *)

(** The fragment of the equity flag, by the value of the flag. *)
Lemma fragmentOf_hasEquity (value : string) :
  fragmentOf ("hasEquity", value)
  = if equalsIgnoreCase value "true" then "equity > 0" else "equity >= 0".
Proof. reflexivity. Qed.

(** C8. For a filter request that holds the key [hasEquity], the
    fragment built for that key is [equity > 0] when the value equals
    "true" up to case and [equity >= 0] for every other value. The
    text the compiler returns is the join of the fragments built for
    its keys; for a valid request it does return, with that fragment
    at the place of the key among the fragments of the other entries;
    and the request [{hasEquity: value}] alone, allowed and not
    rejected, compiles to exactly that fragment. *)
Theorem hasEquity_fragment (rejected : list string) (queries : Obj string)
  (value : string) :
  Object.get queries "hasEquity" = Some value ->
  (equalsIgnoreCase value "true" = true ->
   queryFragment queries "hasEquity" = Return "equity > 0")
  /\ (equalsIgnoreCase value "true" = false ->
      queryFragment queries "hasEquity" = Return "equity >= 0")
  /\ (forall allowed text,
        sqlForFilterQueries rejected queries allowed = Return text ->
        exists fragments,
          Forall2 (fun k f => queryFragment queries k = Return f)
                  (Object.keys queries) fragments
          /\ text = JsString.join " AND " fragments)
  /\ (forall allowed,
        NoDup (Object.keys queries) ->
        validQueries rejected queries allowed ->
        exists before after fragment,
          queries = (before ++ ("hasEquity", value) :: after)%list
          /\ queryFragment queries "hasEquity" = Return fragment
          /\ sqlForFilterQueries rejected queries (Some allowed)
             = Return (JsString.join " AND "
                         (map fragmentOf before ++ fragment :: map fragmentOf after)%list))
  /\ (queries = [("hasEquity", value)] ->
      forall allowed,
        In "hasEquity" allowed ->
        ~ In value rejected ->
        (equalsIgnoreCase value "true" = true ->
         sqlForFilterQueries rejected queries (Some allowed) = Return "equity > 0")
        /\ (equalsIgnoreCase value "true" = false ->
            sqlForFilterQueries rejected queries (Some allowed) = Return "equity >= 0")).
Proof.
  intros Hget.
  pose proof (queryFragment_get queries "hasEquity" value Hget) as Hfrag.
  rewrite fragmentOf_hasEquity in Hfrag.
  split; [| split; [| split; [| split]]].
  - intros E. now rewrite E in Hfrag.
  - intros E. now rewrite E in Hfrag.
  - intros allowed text. apply sqlForFilterQueries_returns.
  - intros allowed Hnd [Hk [Hv Hr]].
    destruct (get_of_key queries "hasEquity" (get_Some_key _ _ _ Hget)) as [v [Hv' Hin]].
    assert (v = value) as -> by congruence.
    destruct (in_split _ _ Hin) as [before [after Hsplit]].
    exists before, after, (fragmentOf ("hasEquity", value)).
    split; [exact Hsplit |].
    split; [now rewrite fragmentOf_hasEquity |].
    rewrite (compile_valid rejected queries allowed Hnd Hk Hv Hr).
    rewrite Hsplit, map_app. reflexivity.
  - intros -> allowed Hallowed Hvalue.
    assert (sqlForFilterQueries rejected [("hasEquity", value)] (Some allowed)
            = Return (fragmentOf ("hasEquity", value))) as Hone.
    { rewrite (compile_valid rejected [("hasEquity", value)] allowed).
      - reflexivity.
      - apply distinct_NoDup. reflexivity.
      - intros k [<- | []]. exact Hallowed.
      - intros v [<- | []]. exact Hvalue.
      - intros H. apply rangeBroken_test in H. discriminate H. }
    rewrite Hone, fragmentOf_hasEquity.
    split; intros ->; reflexivity.
Qed.

Lemma hasEquity_fragment_witness :
  sqlForFilterQueries rejectedValuesOfSpec [("hasEquity", "true")] (Some allowedOfTests)
  = Return "equity > 0"
  /\ sqlForFilterQueries rejectedValuesOfSpec [("hasEquity", "false")] (Some allowedOfTests)
     = Return "equity >= 0"
  /\ queryFragment [("title", "manager"); ("hasEquity", "TRUE")] "hasEquity"
     = Return "equity > 0".
Proof.
  split; [| split].
  - apply (hasEquity_fragment rejectedValuesOfSpec [("hasEquity", "true")] "true");
      try reflexivity.
    + apply includes_In. reflexivity.
    + apply includes_not_In. reflexivity.
  - apply (hasEquity_fragment rejectedValuesOfSpec [("hasEquity", "false")] "false");
      try reflexivity.
    + apply includes_In. reflexivity.
    + apply includes_not_In. reflexivity.
  - apply (hasEquity_fragment rejectedValuesOfSpec
             [("title", "manager"); ("hasEquity", "TRUE")] "TRUE"); reflexivity.
Defined.

Lemma ge_NaN_l (x : JsNumber.Number) : JsNumber.ge JsNumber.NaN x = false.
Proof. reflexivity. Qed.

Lemma ge_NaN_r (x : JsNumber.Number) : JsNumber.ge x JsNumber.NaN = false.
Proof. destruct x; reflexivity. Qed.

Lemma Forall2_In_left {A B : Type} (R : A -> B -> Prop) (l : list A) (l' : list B) (x : A) :
  Forall2 R l l' -> In x l -> exists y, In y l' /\ R x y.
Proof.
  induction 1 as [| a b r r' Hab _ IH]; simpl; [tauto |].
  intros [<- | Hin].
  - exists b. auto.
  - destruct (IH Hin) as [y [Hy HR]]. exists y. auto.
Qed.

(** A numeric key whose value is not a numeric literal gets a
    fragment that ends in the text NaN. *)
Lemma numeric_fragment_NaN (queries : Obj string) (key value : string) :
  In key numericKeys ->
  Object.get queries key = Some value ->
  JsNumber.toNumber value = JsNumber.NaN ->
  queryFragment queries key = Return (comparisonOf key ++ "NaN").
Proof.
  intros Hkey Hget Hnan.
  rewrite (queryFragment_get queries key value Hget).
  destruct Hkey as [<- | [<- | [<- | []]]].
  - change (fragmentOf ("minEmployees", value))
      with ("num_employees >= " ++ JsNumber.toString (JsNumber.toNumber value)).
    now rewrite Hnan.
  - change (fragmentOf ("maxEmployees", value))
      with ("num_employees <= " ++ JsNumber.toString (JsNumber.toNumber value)).
    now rewrite Hnan.
  - change (fragmentOf ("minSalary", value))
      with ("salary >= " ++ JsNumber.toString (JsNumber.toNumber value)).
    now rewrite Hnan.
Qed.

(** C10, as amended. Take a filter request whose keys are all allowed,
    none of whose values is rejected, and in which the value of
    [minEmployees], [maxEmployees] or [minSalary] is a string that is
    not a numeric literal, so that unary plus gives NaN. If that key is
    one of the two employee bounds the range check does not throw; if
    it is [minSalary], suppose the employee bounds do not break the
    range rule. Then the compiler raises no error and returns a text
    with, for that key, its comparison followed by the text NaN. *)
Theorem NaN_fragment (rejected : list string) (queries : Obj string)
  (allowed : list string) (key value : string) :
  keysAllowed queries allowed ->
  noRejectedValue rejected queries ->
  In key numericKeys ->
  Object.get queries key = Some value ->
  JsNumber.toNumber value = JsNumber.NaN ->
  (key = "minSalary" -> ~ rangeBroken queries) ->
  ~ rangeBroken queries
  /\ queryFragment queries key = Return (comparisonOf key ++ "NaN")
  /\ exists fragments,
       sqlForFilterQueries rejected queries (Some allowed)
       = Return (JsString.join " AND " fragments)
       /\ In (comparisonOf key ++ "NaN") fragments.
Proof.
  intros Hk Hv Hkey Hget Hnan Hsal.
  assert (~ rangeBroken queries) as Hrange.
  { destruct Hkey as [<- | [<- | [<- | []]]].
    - intros [_ [_ Hge]]. rewrite Hget in Hge. simpl in Hge.
      rewrite Hnan, ge_NaN_l in Hge. discriminate.
    - intros [_ [_ Hge]]. rewrite Hget in Hge. simpl in Hge.
      rewrite Hnan, ge_NaN_r in Hge. discriminate.
    - now apply Hsal. }
  pose proof (numeric_fragment_NaN queries key value Hkey Hget Hnan) as Hfrag.
  split; [exact Hrange |]. split; [exact Hfrag |].
  rewrite (sqlForFilterQueries_checked rejected queries allowed Hk Hv).
  destruct (_ && _)%bool eqn:Etest.
  - elim Hrange. now apply rangeBroken_test.
  - destruct (mapArray_keys_total queries (Object.keys queries)) as [fs Hfs]; [auto |].
    rewrite Hfs. exists fs. split; [reflexivity |].
    apply mapArray_Forall2 in Hfs.
    destruct (Forall2_In_left _ _ _ key Hfs (get_Some_key _ _ _ Hget)) as [f [Hin Hf]].
    rewrite Hfrag in Hf. injection Hf as <-. exact Hin.
Qed.

Lemma NaN_fragment_witness :
  ~ rangeBroken [("title", "manager"); ("minSalary", "abc")]
  /\ queryFragment [("title", "manager"); ("minSalary", "abc")] "minSalary"
     = Return "salary >= NaN"
  /\ exists fragments,
       sqlForFilterQueries rejectedValuesOfSpec
         [("title", "manager"); ("minSalary", "abc")] (Some allowedOfTests)
       = Return (JsString.join " AND " fragments)
       /\ In "salary >= NaN" fragments.
Proof.
  apply (NaN_fragment rejectedValuesOfSpec [("title", "manager"); ("minSalary", "abc")]
           allowedOfTests "minSalary" "abc").
  - apply keysAllowed_forallb. reflexivity.
  - apply noRejectedValue_existsb. reflexivity.
  - simpl. auto.
  - reflexivity.
  - vm_compute. reflexivity.
  - intros _ H. apply rangeBroken_test in H. discriminate H.
Defined.

(** C10 as stated fails: with an allowed request whose [minSalary] is
    not numeric and whose employee bounds break the range rule, the
    range check throws and no text is returned. *)
Lemma NaN_with_broken_range :
  keysAllowed [("minSalary", "abc"); ("minEmployees", "400"); ("maxEmployees", "300")]
              allowedOfTests
  /\ ~ In "abc" rejectedValuesOfSpec
  /\ JsNumber.toNumber "abc" = JsNumber.NaN
  /\ sqlForFilterQueries rejectedValuesOfSpec
       [("minSalary", "abc"); ("minEmployees", "400"); ("maxEmployees", "300")]
       (Some allowedOfTests)
     = Throw rangeViolation.
Proof.
  split; [| split; [| split]].
  - apply keysAllowed_forallb. reflexivity.
  - apply includes_not_In. reflexivity.
  - vm_compute. reflexivity.
  - vm_compute. reflexivity.
Qed.

(** ** The update compiler *)

Lemma orElse_column (nameMap : Obj string) (key : string) :
  orElse (readProperty nameMap key) key = columnOf nameMap key.
Proof.
  unfold columnOf, readProperty.
  destruct (Object.get nameMap key) as [[| c r] |]; [reflexivity | reflexivity |].
  destruct (Object.get objectPrototype key); reflexivity.
Qed.

Lemma get_None_not_key {V : Type} (o : Obj V) (k : string) :
  ~ In k (Object.keys o) -> Object.get o k = None.
Proof.
  intros Hnot. destruct (Object.get o k) as [v |] eqn:E; [| reflexivity].
  elim Hnot. exact (get_Some_key o k v E).
Qed.

(** On an ordinary key the column is the name of the map if the map
    gives a non-empty one, else the key. *)
Lemma columnOf_ordinary (nameMap : Obj string) (key : string) :
  ordinaryKey nameMap key -> columnOf nameMap key = columnIfNonEmpty nameMap key.
Proof.
  unfold ordinaryKey, columnOf, columnIfNonEmpty. intros Hord.
  destruct (Object.get nameMap key) as [column |]; [reflexivity |].
  destruct Hord as [Hown | Hnot]; [congruence |].
  unfold prototypeNames in Hnot. now rewrite (get_None_not_key objectPrototype key Hnot).
Qed.

Lemma setColsOf_ext {V : Type} (column1 column2 : Obj string -> string -> string)
  (data : Obj V) (nameMap : Obj string) :
  (forall key, In key (Object.keys data) -> column1 nameMap key = column2 nameMap key) ->
  setColsOf column1 data nameMap = setColsOf column2 data nameMap.
Proof.
  intros H. unfold setColsOf. do 3 f_equal. now apply map_ext_in.
Qed.

(** An assignment of the code is the assignment of the specification
    at the column of the key and the placeholder of the next index. *)
Lemma assignment_assignmentOf (nameMap : Obj string) (key : string) (idx : nat) :
  assignment nameMap key idx
  = assignmentOf (columnOf nameMap key) ("$" ++ JsNumber.indexToString (S idx)).
Proof.
  unfold assignment, assignmentOf.
  now rewrite orElse_column, Nat.add_1_r.
Qed.

Lemma mapIndexFrom_assignment (nameMap : Obj string) (ks : list string) (i : nat) :
  mapIndexFrom i (assignment nameMap) ks
  = map (fun cp => assignmentOf (fst cp) (snd cp))
      (combine (map (columnOf nameMap) ks)
               (map (fun j => "$" ++ JsNumber.indexToString j) (seq (S i) (List.length ks)))).
Proof.
  revert i. induction ks as [| k r IH]; intros i; [reflexivity |].
  cbn [mapIndexFrom List.length seq map combine fst snd].
  now rewrite assignment_assignmentOf, IH.
Qed.

Lemma indexToString_inj (i j : nat) :
  JsNumber.indexToString i = JsNumber.indexToString j -> i = j.
Proof.
  unfold JsNumber.indexToString. intros H.
  apply DecimalNat.Unsigned.to_uint_inj.
  assert (Some (Nat.to_uint i) = Some (Nat.to_uint j)) as E.
  { rewrite <- !NilEmpty.usu. now rewrite H. }
  now injection E.
Qed.

Lemma NoDup_map_injective {A B : Type} (f : A -> B) (l : list A) :
  (forall x y, f x = f y -> x = y) -> NoDup l -> NoDup (map f l).
Proof.
  intros Hinj. induction 1 as [| x r Hx _ IH]; simpl; constructor; [| exact IH].
  rewrite in_map_iff. intros [y [Heq Hy]]. apply Hinj in Heq. now subst.
Qed.

Lemma placeholders_NoDup (n : nat) : NoDup (placeholders n).
Proof.
  apply NoDup_map_injective; [| apply seq_NoDup].
  intros i j H. apply indexToString_inj. now injection H.
Qed.

Lemma placeholders_nth (n i : nat) :
  i < n -> nth_error (placeholders n) i = Some ("$" ++ JsNumber.indexToString (i + 1)).
Proof.
  intros Hlt. unfold placeholders.
  rewrite nth_error_map, nth_error_seq.
  apply Nat.ltb_lt in Hlt. rewrite Hlt. simpl.
  now rewrite Nat.add_1_r.
Qed.

(** What [sqlForPartialUpdate] returns for a non-empty request,
    whatever its keys are. *)
Lemma sqlForPartialUpdate_returns {V : Type} (data : Obj V) (nameMap : Obj string) :
  data <> [] ->
  sqlForPartialUpdate data nameMap
  = Return {| setCols := setColsOf columnOf data nameMap;
              values := Object.values data |}.
Proof.
  intros Hne. unfold sqlForPartialUpdate, setColsOf, mapIndex.
  destruct data as [| e r]; [congruence |].
  cbn [Object.keys map List.length Nat.eqb].
  rewrite mapIndexFrom_assignment.
  unfold placeholders, Object.keys. cbn [map List.length]. now rewrite length_map.
Qed.

(** C6, as amended. For a non-empty update request whose keys are
    ordinary (each is held by the name map itself or is none of the
    names inherited from [Object.prototype]), [setCols] is the
    assignments of the keys, in key order, joined by [", "], where the
    column of a key is the name the map gives it if that name is not
    empty, else the key itself, and the placeholder of the key at
    index [i] is [$] followed by [i + 1]: the placeholders are
    [$1], ..., [$n], one per key and all distinct; [values] is the
    values of the request, untouched and in the same order. *)
Theorem sqlForPartialUpdate_compiles {V : Type} (data : Obj V) (nameMap : Obj string) :
  data <> [] ->
  (forall key, In key (Object.keys data) -> ordinaryKey nameMap key) ->
  sqlForPartialUpdate data nameMap
  = Return {| setCols := setColsOf columnIfNonEmpty data nameMap;
              values := Object.values data |}
  /\ List.length (placeholders (List.length data)) = List.length (Object.keys data)
  /\ NoDup (placeholders (List.length data))
  /\ (forall i, i < List.length data ->
        nth_error (placeholders (List.length data)) i
        = Some ("$" ++ JsNumber.indexToString (i + 1))).
Proof.
  intros Hne Hord. split; [| split; [| split]].
  - rewrite (sqlForPartialUpdate_returns data nameMap Hne).
    rewrite (setColsOf_ext columnOf columnIfNonEmpty data nameMap); [reflexivity |].
    intros key Hkey. apply columnOf_ordinary. now apply Hord.
  - unfold placeholders, Object.keys. now rewrite !length_map, length_seq.
  - apply placeholders_NoDup.
  - intros i. apply placeholders_nth.
Qed.

Lemma sqlForPartialUpdate_compiles_witness :
  sqlForPartialUpdate
    [("firstName", "Bobby"); ("lastName", "McGee"); ("email", "hello@bm.com")]
    [("firstName", "first_name"); ("lastName", "last_name"); ("isAdmin", "is_admin")]
  = Return {| setCols := JsString.join ", " [assignmentOf "first_name" "$1";
                                             assignmentOf "last_name" "$2";
                                             assignmentOf "email" "$3"];
              values := ["Bobby"; "McGee"; "hello@bm.com"] |}.
Proof.
  refine (proj1 (sqlForPartialUpdate_compiles
                   [("firstName", "Bobby"); ("lastName", "McGee"); ("email", "hello@bm.com")]
                   [("firstName", "first_name"); ("lastName", "last_name");
                    ("isAdmin", "is_admin")] _ _)).
  - discriminate.
  - intros key Hkey. right. apply includes_not_In.
    destruct Hkey as [<- | [<- | [<- | []]]]; reflexivity.
Defined.

(** C6 as stated fails: when the map gives a key the empty name, the
    code uses the key, not the empty name the map holds. *)
Lemma empty_column_name_skipped :
  sqlForPartialUpdate [("a", tt)] [("a", EmptyString)]
  = Return {| setCols := assignmentOf "a" "$1"; values := [tt] |}
  /\ setColsOf columnIfPresent [("a", tt)] [("a", EmptyString)]
     = assignmentOf EmptyString "$1"
  /\ sqlForPartialUpdate [("a", tt)] [("a", EmptyString)]
     <> Return {| setCols := setColsOf columnIfPresent [("a", tt)] [("a", EmptyString)];
                  values := [tt] |}.
Proof.
  split; [| split].
  - vm_compute. reflexivity.
  - vm_compute. reflexivity.
  - vm_compute. discriminate.
Qed.

(** C7. An empty update request is refused with the "No data"
    BadRequestError, whatever the name map is. *)
Theorem sqlForPartialUpdate_empty {V : Type} (nameMap : Obj string) :
  @sqlForPartialUpdate V [] nameMap = Throw noData.
Proof. reflexivity. Qed.

(** * Further properties of the code *)

(** ** The update compiler and [Job.update] *)

(** X1. The assignment list is built from the keys and the name map alone:
    two update requests with the same keys, whatever their values and
    the type of their values, get the same [setCols]. No value reaches
    the text of the statement. *)
Theorem setCols_ignores_values {V W : Type} (data1 : Obj V) (data2 : Obj W)
  (nameMap : Obj string) :
  Object.keys data1 = Object.keys data2 ->
  data1 <> [] ->
  exists u1 u2,
    sqlForPartialUpdate data1 nameMap = Return u1
    /\ sqlForPartialUpdate data2 nameMap = Return u2
    /\ setCols u1 = setCols u2.
Proof.
  intros Hkeys Hne. unfold sqlForPartialUpdate. rewrite <- Hkeys.
  destruct data1 as [| e r]; [congruence |].
  cbn [Object.keys map List.length Nat.eqb].
  eexists. eexists. repeat split.
Qed.

Lemma setCols_ignores_values_witness :
  exists u1 u2,
    sqlForPartialUpdate [("title", "chef"); ("salary", "1")] [] = Return u1
    /\ sqlForPartialUpdate [("title", 7); ("salary", 8)] [] = Return u2
    /\ setCols u1 = setCols u2.
Proof.
  apply (setCols_ignores_values [("title", "chef"); ("salary", "1")]
           [("title", 7); ("salary", 8)] []).
  - reflexivity.
  - discriminate.
Defined.

Lemma placeholder_fresh (n : nat) :
  ~ In ("$" ++ JsNumber.indexToString (n + 1)) (placeholders n).
Proof.
  unfold placeholders. rewrite in_map_iff. intros [i [Heq Hin]].
  injection Heq as Heq. apply indexToString_inj in Heq.
  apply in_seq in Hin. lia.
Qed.

Lemma columnOf_no_map (key : string) :
  ~ In key prototypeNames -> columnOf [] key = key.
Proof.
  intros Hnot. rewrite columnOf_ordinary; [reflexivity | now right].
Qed.

(** X2. For a non-empty update, [Job.update] sends a statement whose SET
    list pairs the columns of the keys with the placeholders [$1..$n],
    and whose WHERE clause uses the next placeholder [$(n+1)], which
    none of the assignments uses; the parameters are the values of the
    request in order followed by the id, so that the id sits at
    position [n+1], the one its placeholder names. Its name map being
    the empty object, the column of a key is the key itself, unless
    the key names a member of [Object.prototype], whose text is then
    the column. *)
Theorem Job_update_alignment {V : Type} (id : V) (data : Obj V) :
  data <> [] ->
  exists q,
    Job_update id data = Return q
    /\ idVarIdx q = "$" ++ JsNumber.indexToString (List.length data + 1)
    /\ querySql q = Job_updateSql (setColsOf columnOf data []) (idVarIdx q)
    /\ ((forall key, In key (Object.keys data) -> ~ In key prototypeNames) ->
        querySql q = Job_updateSql (setColsOf (fun _ key => key) data []) (idVarIdx q))
    /\ ~ In (idVarIdx q) (placeholders (List.length data))
    /\ parameters q = (Object.values data ++ [id])%list
    /\ nth_error (parameters q) (List.length data) = Some id
    /\ (forall i v, nth_error (Object.values data) i = Some v ->
                    nth_error (parameters q) i = Some v).
Proof.
  intros Hne. unfold Job_update.
  rewrite (sqlForPartialUpdate_returns data [] Hne).
  cbn [bind values setCols].
  assert (List.length (Object.values data) = List.length data) as Hlen.
  { unfold Object.values. apply length_map. }
  rewrite Hlen. eexists. split; [reflexivity |].
  cbn [idVarIdx querySql parameters].
  split; [reflexivity |]. split; [reflexivity |]. split.
  { intros Hkeys.
    rewrite (setColsOf_ext columnOf (fun _ key => key) data []); [reflexivity |].
    intros key Hkey. apply columnOf_no_map. now apply Hkeys. }
  split; [apply placeholder_fresh |]. split; [reflexivity |]. split.
  - rewrite nth_error_app2; rewrite Hlen; [| lia]. now rewrite Nat.sub_diag.
  - intros i v Hi. rewrite nth_error_app1; [exact Hi |].
    apply nth_error_Some. congruence.
Qed.

Lemma Job_update_alignment_witness :
  exists q,
    Job_update "7" [("title", "chef"); ("salary", "90000")] = Return q
    /\ idVarIdx q = "$3"
    /\ querySql q
       = Job_updateSql (JsString.join ", " [assignmentOf "title" "$1";
                                            assignmentOf "salary" "$2"]) "$3"
    /\ parameters q = ["chef"; "90000"; "7"].
Proof.
  destruct (Job_update_alignment "7" [("title", "chef"); ("salary", "90000")])
    as [q [Hq [Hid [_ [Hsql [_ [Hp _]]]]]]].
  - discriminate.
  - exists q. split; [exact Hq |]. split; [exact Hid |]. split; [| exact Hp].
    rewrite Hsql, Hid; [reflexivity |].
    intros key Hkey. apply includes_not_In.
    destruct Hkey as [<- | [<- | []]]; reflexivity.
Defined.

(** X3. Before the database is reached, [Job.update] fails for the empty
    update only, and then with the "No data" BadRequestError. *)
Theorem Job_update_fails_iff_empty {V : Type} (id : V) (data : Obj V) (e : Error) :
  Job_update id data = Throw e <-> data = [] /\ e = noData.
Proof.
  split.
  - destruct data as [| entry r].
    + cbn. intros H. injection H as <-. split; reflexivity.
    + intros H. unfold Job_update in H.
      rewrite (sqlForPartialUpdate_returns (entry :: r) []) in H by discriminate.
      discriminate H.
  - intros [-> ->]. reflexivity.
Qed.

(** ** The filter compiler: outcomes *)

(** X4. For a filter request whose values are all text and with an
    allow-list, [sqlForFilterQueries] returns a text for the valid
    requests and for no other. (A value that is no text, such as the
    array of a repeated parameter, is not a value of the model: the
    source throws a TypeError on it under a free-text key.) *)
Theorem compiles_iff_valid (rejected : list string) (queries : Obj string)
  (allowed : list string) :
  (exists text, sqlForFilterQueries rejected queries (Some allowed) = Return text)
  <-> validQueries rejected queries allowed.
Proof.
  unfold validQueries.
  destruct (validation_outcome rejected queries allowed)
    as [[Hk E] | [[Hk [Hv E]] | [[Hk [Hv [Hr E]]] | [Hk [Hv [Hr [fs [_ E]]]]]]]];
    rewrite E; split;
    try (intros [text Ht]; discriminate Ht); try tauto.
  intros _. eexists. reflexivity.
Qed.

(** X5. For a filter request whose values are all text and with an
    allow-list, a failure is never a TypeError: it is the "invalid
    query parameter" error exactly when some key is outside the
    allow-list, and the "invalid query value" error exactly when all
    keys are allowed and some value is rejected. The key check takes
    precedence over the value check, and both over the range check.
    (A value that is no text is not a value of the model: on it the
    source can throw a TypeError.) *)
Theorem failure_classification (rejected : list string) (queries : Obj string)
  (allowed : list string) :
  sqlForFilterQueries rejected queries (Some allowed) <> Throw TypeError
  /\ (sqlForFilterQueries rejected queries (Some allowed) = Throw invalidParameter
      <-> ~ keysAllowed queries allowed)
  /\ (sqlForFilterQueries rejected queries (Some allowed) = Throw invalidValue
      <-> keysAllowed queries allowed /\ ~ noRejectedValue rejected queries).
Proof.
  destruct (validation_outcome rejected queries allowed)
    as [[Hk E] | [[Hk [Hv E]] | [[Hk [Hv [Hr E]]] | [Hk [Hv [Hr [fs [_ E]]]]]]]];
    rewrite E; (split; [discriminate |]); split; split;
    try discriminate; try tauto.
Qed.

Lemma ge_refl (x : JsNumber.Number) : x <> JsNumber.NaN -> JsNumber.ge x x = true.
Proof.
  intros Hx. unfold JsNumber.ge.
  destruct x as [s | s | | s m e]; cbn.
  - reflexivity.
  - destruct s; reflexivity.
  - now elim Hx.
  - rewrite Z.compare_refl, Pos.compare_cont_refl. destruct s; reflexivity.
Qed.

(** X6. Equal bounds are refused: an allowed request without rejected
    value whose [minEmployees] and [maxEmployees] are the same Number
    fails with the range violation, although the message speaks of a
    minimum larger than the maximum. *)
Theorem equal_bounds_refused (rejected : list string) (queries : Obj string)
  (allowed : list string) (low high : string) :
  keysAllowed queries allowed ->
  noRejectedValue rejected queries ->
  Object.get queries "minEmployees" = Some low ->
  Object.get queries "maxEmployees" = Some high ->
  JsNumber.toNumber low = JsNumber.toNumber high ->
  JsNumber.toNumber low <> JsNumber.NaN ->
  sqlForFilterQueries rejected queries (Some allowed) = Throw rangeViolation.
Proof.
  intros Hk Hv Hlow Hhigh Heq Hnan.
  rewrite (sqlForFilterQueries_checked rejected queries allowed Hk Hv).
  assert (rangeBroken queries) as Hb.
  { split; [eapply get_Some_key; eassumption |].
    split; [eapply get_Some_key; eassumption |].
    rewrite Hlow, Hhigh. cbn [JsNumber.toNumberValue].
    rewrite <- Heq. now apply ge_refl. }
  apply rangeBroken_test in Hb. now rewrite Hb.
Qed.

Lemma equal_bounds_refused_witness :
  sqlForFilterQueries rejectedValuesOfSpec
    [("minEmployees", "100"); ("maxEmployees", "1e2")] (Some allowedOfTests)
  = Throw rangeViolation.
Proof.
  apply (equal_bounds_refused rejectedValuesOfSpec
           [("minEmployees", "100"); ("maxEmployees", "1e2")] allowedOfTests "100" "1e2").
  - apply keysAllowed_forallb. reflexivity.
  - apply noRejectedValue_existsb. reflexivity.
  - reflexivity.
  - reflexivity.
  - vm_compute. reflexivity.
  - vm_compute. discriminate.
Defined.

Lemma compiles_iff_valid_witness :
  exists text,
    sqlForFilterQueries rejectedValuesOfSpec [("title", "chef"); ("minSalary", "10")]
      (Some allowedOfTests) = Return text.
Proof.
  apply (compiles_iff_valid rejectedValuesOfSpec [("title", "chef"); ("minSalary", "10")]
           allowedOfTests).
  split; [| split].
  - apply keysAllowed_forallb. reflexivity.
  - apply noRejectedValue_existsb. reflexivity.
  - intros H. apply rangeBroken_test in H. discriminate H.
Defined.

Lemma failure_classification_witness :
  sqlForFilterQueries rejectedValuesOfSpec [("cats", "null")] (Some allowedOfTests)
  = Throw invalidParameter.
Proof.
  apply (failure_classification rejectedValuesOfSpec [("cats", "null")] allowedOfTests).
  intros H. apply keysAllowed_forallb in H. discriminate H.
Defined.

(** ** The filter compiler: what reaches the text *)

Lemma allChars_app (p : ascii -> bool) (a b : string) :
  allChars p (a ++ b) = (allChars p a && allChars p b)%bool.
Proof.
  induction a as [| c r IH]; cbn; [reflexivity |].
  rewrite IH. now rewrite andb_assoc.
Qed.

Lemma allChars_substring (p : ascii -> bool) (s : string) (n m : nat) :
  allChars p s = true -> allChars p (substring n m s) = true.
Proof.
  revert n m. induction s as [| c r IH]; intros n m H.
  - destruct n, m; reflexivity.
  - cbn in H. apply andb_prop in H. destruct H as [Hc Hr].
    destruct n as [| n]; cbn.
    + destruct m as [| m]; cbn; [reflexivity |].
      rewrite Hc. now apply IH.
    + now apply IH.
Qed.

Lemma allChars_zeros (n : nat) : allChars numberChar (JsNumber.zeros n) = true.
Proof. induction n as [| n IH]; cbn; [reflexivity | exact IH]. Qed.

Lemma allChars_uint (d : Decimal.uint) :
  allChars numberChar (NilEmpty.string_of_uint d) = true.
Proof. induction d; cbn; try reflexivity; exact IHd. Qed.

Lemma allChars_digitsOf (z : Z) : allChars numberChar (JsNumber.digitsOf z) = true.
Proof.
  unfold JsNumber.digitsOf, NilZero.string_of_uint.
  destruct (N.to_uint (Z.to_N z)); try reflexivity; apply allChars_uint.
Qed.

Lemma allChars_layout (s n : Z) : allChars numberChar (JsNumber.layout s n) = true.
Proof.
  unfold JsNumber.layout.
  pose proof (allChars_digitsOf s) as Hds.
  repeat match goal with
         | |- context [if ?c then _ else _] => destruct c
         end;
    rewrite ?allChars_app, ?andb_true_iff;
    repeat split;
    try reflexivity;
    try apply allChars_zeros;
    try apply allChars_digitsOf;
    try (apply allChars_substring; exact Hds).
Qed.

(** The text of a Number holds no character other than digits, the
    point, the exponent mark, the signs and the letters of NaN and
    Infinity. *)
Lemma allChars_toString (x : JsNumber.Number) :
  allChars numberChar (JsNumber.toString x) = true.
Proof.
  destruct x as [s | s | | s m e]; try reflexivity.
  - destruct s; reflexivity.
  - unfold JsNumber.toString.
    destruct (JsNumber.ratioOf m e) as [a b].
    destruct (JsNumber.shortest _ _ _ _ _ _) as [d n].
    rewrite allChars_app, allChars_layout. destruct s; reflexivity.
Qed.

(** X7. For a numeric key, whatever the request holds under it (even
    nothing), the fragment is the comparison of the key followed by the
    text of a Number: none of the characters of the value, no quote, no
    space and no semicolon, reaches the statement through such a key. *)
Theorem numeric_fragment_text (queries : Obj string) (key : string) :
  In key numericKeys ->
  exists text,
    queryFragment queries key = Return (comparisonOf key ++ text)
    /\ allChars numberChar text = true.
Proof.
  intros Hkey.
  exists (JsNumber.toString (JsNumber.toNumberValue (Object.get queries key))).
  split; [| apply allChars_toString].
  destruct Hkey as [<- | [<- | [<- | []]]]; reflexivity.
Qed.

Lemma numeric_fragment_text_witness :
  exists text,
    queryFragment [("minSalary", "1; DROP TABLE jobs")] "minSalary"
    = Return ("salary >= " ++ text)
    /\ allChars numberChar text = true.
Proof.
  apply (numeric_fragment_text [("minSalary", "1; DROP TABLE jobs")] "minSalary").
  simpl. auto.
Defined.

Lemma not_special (key : string) :
  ~ In key specialKeys ->
  String.eqb key "minEmployees" = false
  /\ String.eqb key "maxEmployees" = false
  /\ String.eqb key "minSalary" = false
  /\ String.eqb key "hasEquity" = false.
Proof.
  intros H. repeat split; apply String.eqb_neq; intros ->; apply H; simpl; auto.
Qed.

(** X8. A free-text key compiles its value, lower-cased and otherwise
    untouched, between the two wildcards: nothing is escaped. The
    rejected-value test looks at the value as given, so a value that
    is not itself listed is compiled even when its lower case is a
    rejected value. *)
Theorem free_text_pattern (rejected allowed : list string) (key value : string) :
  In key allowed ->
  ~ In key specialKeys ->
  ~ In value rejected ->
  sqlForFilterQueries rejected [(key, value)] (Some allowed)
  = Return ("lower(" ++ key ++ ") LIKE '%" ++ JsString.toLowerCase value ++ "%'").
Proof.
  intros Hallowed Hspecial Hvalue.
  destruct (not_special key Hspecial) as [E1 [E2 [E3 E4]]].
  rewrite (compile_valid rejected [(key, value)] allowed).
  - unfold fragmentOf. cbn [map JsString.join]. now rewrite E1, E2, E3, E4.
  - repeat constructor. simpl. tauto.
  - intros k [<- | []]. exact Hallowed.
  - intros v [<- | []]. exact Hvalue.
  - intros [[Hmin | []] _]. cbn in Hmin. apply Hspecial. subst key. simpl. auto.
Qed.

Lemma free_text_pattern_witness :
  In "null" rejectedValuesOfSpec
  /\ sqlForFilterQueries rejectedValuesOfSpec [("name", "NULL")] (Some allowedOfTests)
     = Return "lower(name) LIKE '%null%'".
Proof.
  split; [simpl; auto |].
  apply (free_text_pattern rejectedValuesOfSpec allowedOfTests "name" "NULL").
  - simpl. auto.
  - apply includes_not_In. reflexivity.
  - apply includes_not_In. reflexivity.
Defined.

Lemma fragmentOf_alike (e1 e2 : string * string) :
  alike e1 e2 -> fragmentOf e1 = fragmentOf e2.
Proof.
  destruct e1 as [k v1], e2 as [k2 v2]. unfold alike. cbn [fst snd].
  intros [<- H]. unfold fragmentOf.
  unfold includes, numericKeys in H. cbn [existsb] in H.
  destruct (String.eqb k "minEmployees"); [cbn in H; now subst |].
  destruct (String.eqb k "maxEmployees"); [cbn in H; now subst |].
  destruct (String.eqb k "minSalary"); [cbn in H; now subst |].
  cbn in H. now rewrite H.
Qed.

Lemma alike_keys (q1 q2 : Obj string) :
  Forall2 alike q1 q2 -> Object.keys q1 = Object.keys q2.
Proof.
  induction 1 as [| e1 e2 r1 r2 [Hk _] _ IH]; [reflexivity |].
  unfold Object.keys in *. cbn [map]. now rewrite Hk, IH.
Qed.

Lemma alike_fragments (q1 q2 : Obj string) :
  Forall2 alike q1 q2 -> map fragmentOf q1 = map fragmentOf q2.
Proof.
  induction 1 as [| e1 e2 r1 r2 He _ IH]; [reflexivity |].
  cbn [map]. now rewrite (fragmentOf_alike e1 e2 He), IH.
Qed.

(** X9. The search is blind to the case of text values: two valid
    requests with the same keys in the same order, equal values under
    the numeric keys and values equal up to case under the other keys
    compile to the same text. *)
Theorem compile_ignores_case (rejected : list string) (queries1 queries2 : Obj string)
  (allowed : list string) :
  NoDup (Object.keys queries1) ->
  Forall2 alike queries1 queries2 ->
  validQueries rejected queries1 allowed ->
  validQueries rejected queries2 allowed ->
  sqlForFilterQueries rejected queries1 (Some allowed)
  = sqlForFilterQueries rejected queries2 (Some allowed).
Proof.
  intros Hnd Halike [Hk1 [Hv1 Hr1]] [Hk2 [Hv2 Hr2]].
  rewrite (compile_valid rejected queries1 allowed Hnd Hk1 Hv1 Hr1).
  rewrite (compile_valid rejected queries2 allowed) ; try assumption.
  - now rewrite (alike_fragments queries1 queries2 Halike).
  - now rewrite <- (alike_keys queries1 queries2 Halike).
Qed.

Lemma compile_ignores_case_witness :
  sqlForFilterQueries rejectedValuesOfSpec
    [("title", "Chef"); ("minSalary", "10"); ("hasEquity", "TRUE")] (Some allowedOfTests)
  = sqlForFilterQueries rejectedValuesOfSpec
      [("title", "cHEF"); ("minSalary", "10"); ("hasEquity", "true")] (Some allowedOfTests).
Proof.
  apply (compile_ignores_case rejectedValuesOfSpec
           [("title", "Chef"); ("minSalary", "10"); ("hasEquity", "TRUE")]
           [("title", "cHEF"); ("minSalary", "10"); ("hasEquity", "true")]
           allowedOfTests).
  - apply distinct_NoDup. reflexivity.
  - repeat constructor.
  - split; [| split].
    + apply keysAllowed_forallb. reflexivity.
    + apply noRejectedValue_existsb. reflexivity.
    + intros H. apply rangeBroken_test in H. discriminate H.
  - split; [| split].
    + apply keysAllowed_forallb. reflexivity.
    + apply noRejectedValue_existsb. reflexivity.
    + intros H. apply rangeBroken_test in H. discriminate H.
Defined.

(** ** [GET /jobs] *)

Lemma findAll_is_not_a_filter (predicate : string) :
  Job_findAllSql <> Job_sqlString predicate.
Proof.
  unfold Job_findAllSql, Job_sqlString. cbn. discriminate.
Qed.

(** X10. The handler of [GET /jobs] sends the statement of [Job.findAll]
    when the query string is empty, and passes a TypeError to [next]
    as soon as it holds a parameter: the statement of [Job.filter],
    with its WHERE clause, is never sent, with an empty predicate or
    with any other. *)
Theorem jobsGet_outcome (rejected : list string) (query : Obj string) :
  (query = [] -> jobsGet rejected query = Return Job_findAllSql)
  /\ (query <> [] -> jobsGet rejected query = Throw TypeError)
  /\ forall predicate, jobsGet rejected query <> Return (Job_sqlString predicate).
Proof.
  destruct query as [| [k v] r].
  - repeat split; try congruence.
    intros predicate H.
    change (jobsGet rejected []) with (Return Job_findAllSql) in H.
    apply (f_equal (fun c => match c with Return t => t | Throw _ => EmptyString end)) in H.
    exact (findAll_is_not_a_filter predicate H).
  - repeat split; try discriminate.
Qed.

Lemma jobsGet_outcome_witness :
  jobsGet rejectedValuesOfSpec [] = Return Job_findAllSql
  /\ jobsGet rejectedValuesOfSpec [("title", "manager")] = Throw TypeError.
Proof.
  split.
  - apply (jobsGet_outcome rejectedValuesOfSpec []). reflexivity.
  - apply (jobsGet_outcome rejectedValuesOfSpec [("title", "manager")]). discriminate.
Defined.

(** ** The middleware *)

(** The two outcomes of [isAuthorized] for a logged-in user. *)
Lemma isAuthorized_cases (req : Request) (u : User) :
  (mayPass req u -> isAuthorized req (Some u) = (Some u, None))
  /\ (~ mayPass req u ->
      exists message,
        isAuthorized req (Some u) = (Some u, Some (UnauthorizedError (Some message)))).
Proof.
  unfold mayPass, isAuthorized.
  destruct req as [h [[| c r] |]]; cbn [paramsUsername truthy];
    destruct u as [name admin]; cbn [username isAdmin].
  - destruct admin; cbn; split.
    + reflexivity.
    + intros H. elim H. now left.
    + intros [H | [H _]]; discriminate.
    + intros _. eexists. reflexivity.
  - destruct (String.eqb name (String c r)) eqn:E; cbn.
    + apply String.eqb_eq in E. subst name. split; [reflexivity |].
      intros H. elim H. right. split; reflexivity.
    + apply String.eqb_neq in E. destruct admin; cbn; split.
      * reflexivity.
      * intros H. elim H. now left.
      * intros [H | [_ H]]; [discriminate | congruence].
      * intros _. eexists. reflexivity.
  - destruct admin; cbn; split.
    + reflexivity.
    + intros H. elim H. now left.
    + intros [H | [H _]]; discriminate.
    + intros _. eexists. reflexivity.
Qed.

(** X11. A logged-in user passes [isAuthorized] exactly when the user is an
    administrator or the route names that very user by a non-empty
    [username] parameter; any other logged-in user gets an
    UnauthorizedError with a message, and [res.locals.user] is left as
    it was. *)
Theorem isAuthorized_logged_in (req : Request) (u : User) :
  (mayPass req u -> isAuthorized req (Some u) = (Some u, None))
  /\ (~ mayPass req u ->
      exists message,
        isAuthorized req (Some u) = (Some u, Some (UnauthorizedError (Some message)))).
Proof. exact (isAuthorized_cases req u). Qed.

Lemma isAuthorized_logged_in_witness :
  isAuthorized {| headers := None; paramsUsername := Some "test" |}
    (Some {| username := "test"; isAdmin := false |})
  = (Some {| username := "test"; isAdmin := false |}, None)
  /\ exists message,
       isAuthorized {| headers := None; paramsUsername := Some "testTest" |}
         (Some {| username := "test"; isAdmin := false |})
       = (Some {| username := "test"; isAdmin := false |},
          Some (UnauthorizedError (Some message))).
Proof.
  split.
  - apply (isAuthorized_logged_in {| headers := None; paramsUsername := Some "test" |}
             {| username := "test"; isAdmin := false |}).
    right. split; reflexivity.
  - apply (isAuthorized_logged_in {| headers := None; paramsUsername := Some "testTest" |}
             {| username := "test"; isAdmin := false |}).
    intros [H | [_ H]]; discriminate.
Defined.

Lemma classic_mayPass (req : Request) (u : User) : mayPass req u \/ ~ mayPass req u.
Proof.
  unfold mayPass. destruct (isAdmin u); [left; left; reflexivity |].
  destruct (paramsUsername req) as [[| c r] |]; cbn.
  - right. intros [H | [H _]]; discriminate.
  - destruct (String.eqb (String c r) (username u)) eqn:E.
    + apply String.eqb_eq in E. rewrite E. left. right. split; reflexivity.
    + apply String.eqb_neq in E. right. intros [H | [_ H]]; [discriminate | congruence].
  - right. intros [H | [H _]]; discriminate.
Qed.

(** X12. On its own [isAuthorized] reads the fields of an absent user and
    passes the TypeError it catches to [next]; behind [ensureLoggedIn],
    as every protected route registers it, that cannot happen: the
    handler is reached exactly by a logged-in user who may pass, an
    anonymous request gets the UnauthorizedError without message of
    [ensureLoggedIn], any other gets an UnauthorizedError, and
    [res.locals.user] is never changed. *)
Theorem protectedRoute_outcome (req : Request) (user : option User) :
  isAuthorized req None = (None, Some (Caught TypeError))
  /\ fst (runMiddleware protectedRoute req user) = user
  /\ (snd (runMiddleware protectedRoute req user) = None
      <-> exists u, user = Some u /\ mayPass req u)
  /\ (user = None ->
      snd (runMiddleware protectedRoute req user) = Some (UnauthorizedError None))
  /\ (forall e, snd (runMiddleware protectedRoute req user) <> Some (Caught e)).
Proof.
  split.
  { unfold isAuthorized. destruct (truthy (paramsUsername req)); reflexivity. }
  destruct user as [u |].
  - cbn [runMiddleware protectedRoute ensureLoggedIn].
    destruct (isAuthorized_cases req u) as [Hyes Hno].
    destruct (isAuthorized req (Some u)) as [user' [e |]] eqn:E.
    + assert (~ mayPass req u) as Hnot.
      { intros Hm. specialize (Hyes Hm). discriminate Hyes. }
      destruct (Hno Hnot) as [message Hm]. injection Hm as -> ->.
      cbn. repeat split; try discriminate.
      intros [u' [Hu Hm]]. injection Hu as <-. contradiction.
    + assert (mayPass req u) as Hm.
      { destruct (classic_mayPass req u) as [Hm | Hm]; [exact Hm |].
        destruct (Hno Hm) as [message Hx]. discriminate Hx. }
      specialize (Hyes Hm). injection Hyes as ->.
      cbn. repeat split; try discriminate.
      intros _. exists u. split; [reflexivity | exact Hm].
  - cbn. repeat split; try discriminate.
    intros [u [Hu _]]. discriminate Hu.
Qed.

Lemma protectedRoute_outcome_witness :
  snd (runMiddleware protectedRoute {| headers := None; paramsUsername := None |}
         (Some {| username := "testAdmin"; isAdmin := true |})) = None
  /\ snd (runMiddleware protectedRoute {| headers := None; paramsUsername := None |} None)
     = Some (UnauthorizedError None).
Proof.
  split.
  - apply (protectedRoute_outcome {| headers := None; paramsUsername := None |}
             (Some {| username := "testAdmin"; isAdmin := true |})).
    eexists. split; [reflexivity |]. left. reflexivity.
  - apply (protectedRoute_outcome {| headers := None; paramsUsername := None |} None).
    reflexivity.
Defined.

Lemma substring_all (s : string) : substring 0 (String.length s) s = s.
Proof. induction s as [| c r IH]; cbn; [reflexivity | now rewrite IH]. Qed.

Lemma stripBearer_upper (token : string) : stripBearer ("Bearer " ++ token) = token.
Proof.
  cbn. replace (prefix EmptyString token) with true by (now destruct token).
  rewrite Nat.sub_0_r. apply substring_all.
Qed.

Lemma stripBearer_lower (token : string) : stripBearer ("bearer " ++ token) = token.
Proof.
  cbn. replace (prefix EmptyString token) with true by (now destruct token).
  rewrite Nat.sub_0_r. apply substring_all.
Qed.

(** X13. [authenticateJWT] never passes an error to [next], whatever the
    header holds and whether the token verifies or not; and it changes
    [res.locals.user] in one case only: the authorization header is a
    non-empty string and the token in it, the header without its
    [Bearer ] prefix and trimmed, verifies; the user is then the
    payload of that token. *)
Theorem authenticateJWT_outcome (verify : string -> option User) (req : Request)
  (user : option User) :
  snd (authenticateJWT verify req user) = None
  /\ (fst (authenticateJWT verify req user) = user
      \/ exists header payload,
           headers req = Some (Some header)
           /\ header <> EmptyString
           /\ verify (JsString.trim (stripBearer header)) = Some payload
           /\ fst (authenticateJWT verify req user) = Some payload).
Proof.
  unfold authenticateJWT.
  destruct (headers req) as [[[| c r] |] |]; cbn [truthy fst snd]; try (split; [reflexivity | now left]).
  destruct (verify (JsString.trim (stripBearer (String c r)))) as [payload |] eqn:E.
  - split; [reflexivity |]. right. exists (String c r), payload.
    repeat split; [discriminate | exact E].
  - split; [reflexivity | now left].
Qed.

(** X14. The prefix of the authorization header is optional and its first
    letter may be in either case: [Bearer t], [bearer t] and, when [t]
    is not empty and does not itself start with such a prefix, [t]
    alone authenticate alike. *)
Theorem bearer_prefix_optional (verify : string -> option User) (token : string)
  (param : option string) (user : option User) :
  authenticateJWT verify {| headers := Some (Some ("bearer " ++ token));
                            paramsUsername := param |} user
  = authenticateJWT verify {| headers := Some (Some ("Bearer " ++ token));
                              paramsUsername := param |} user
  /\ (token <> EmptyString ->
      stripBearer token = token ->
      authenticateJWT verify {| headers := Some (Some token); paramsUsername := param |} user
      = authenticateJWT verify {| headers := Some (Some ("Bearer " ++ token));
                                  paramsUsername := param |} user).
Proof.
  unfold authenticateJWT. cbn [headers].
  change (truthy (Some ("bearer " ++ token))) with true.
  change (truthy (Some ("Bearer " ++ token))) with true.
  cbv iota. rewrite stripBearer_lower, stripBearer_upper.
  split; [reflexivity |].
  intros Hne Hstrip. destruct token as [| c r]; [congruence |].
  cbn [truthy]. now rewrite Hstrip.
Qed.

Lemma bearer_prefix_optional_witness :
  authenticateJWT (fun t => if String.eqb t "abc" then Some {| username := "u1"; isAdmin := false |} else None)
    {| headers := Some (Some "abc"); paramsUsername := None |} None
  = authenticateJWT (fun t => if String.eqb t "abc" then Some {| username := "u1"; isAdmin := false |} else None)
      {| headers := Some (Some ("Bearer " ++ "abc")); paramsUsername := None |} None.
Proof.
  apply (bearer_prefix_optional
           (fun t => if String.eqb t "abc" then Some {| username := "u1"; isAdmin := false |} else None)
           "abc" None None).
  - discriminate.
  - reflexivity.
Defined.

(** ** Inherited names in the name map *)

Lemma inherited_text_differs (key text : string) :
  Object.get objectPrototype key = Some text -> text <> key.
Proof.
  unfold objectPrototype. cbn [Object.get].
  repeat match goal with
         | |- context [String.eqb key ?name] =>
             destruct (String.eqb key name) eqn:E;
             [apply String.eqb_eq in E; subst key; intros H; injection H as <-;
              vm_compute; discriminate | clear E]
         end.
  intros H. discriminate H.
Qed.

(** X15. A key of the update request that names a member of
    [Object.prototype] (toString, constructor, ...) and that the name
    map does not hold itself gets as column the text of that inherited
    member, not the key: the read [jsToSql[colName]] finds the member,
    which is true in a condition. *)
Theorem inherited_name_as_column {V : Type} (value : V) (nameMap : Obj string)
  (key text : string) :
  Object.get nameMap key = None ->
  Object.get objectPrototype key = Some text ->
  sqlForPartialUpdate [(key, value)] nameMap
  = Return {| setCols := assignmentOf text "$1"; values := [value] |}
  /\ text <> key.
Proof.
  intros Hown Hinherited. split; [| exact (inherited_text_differs key text Hinherited)].
  rewrite sqlForPartialUpdate_returns by discriminate.
  unfold setColsOf, columnOf. cbn [Object.keys map fst]. now rewrite Hown, Hinherited.
Qed.

Lemma inherited_name_as_column_witness :
  sqlForPartialUpdate [("toString", "x")] []
  = Return {| setCols := assignmentOf "function toString() { [native code] }" "$1";
              values := ["x"] |}.
Proof.
  apply (inherited_name_as_column "x" [] "toString" "function toString() { [native code] }");
    reflexivity.
Defined.

(** ** Values that are no text *)

Lemma get_asValues (queries : Obj string) (k : string) :
  Object.get (asValues queries) k = option_map TextValue (Object.get queries k).
Proof.
  induction queries as [| [k' v] r IH]; [reflexivity |].
  cbn [asValues map Object.get fst snd]. destruct (String.eqb k k'); [reflexivity | exact IH].
Qed.

Lemma keys_asValues (queries : Obj string) :
  Object.keys (asValues queries) = Object.keys queries.
Proof.
  unfold Object.keys, asValues. rewrite map_map. reflexivity.
Qed.

Lemma queryFragmentAny_asValues (queries : Obj string) (k : string) :
  queryFragmentAny (asValues queries) k = queryFragment queries k.
Proof.
  unfold queryFragmentAny, queryFragment. rewrite !get_asValues.
  destruct (Object.get queries k), (Object.get queries "hasEquity"); reflexivity.
Qed.

Lemma mapArray_ext {A B : Type} (f g : A -> Completion B) (l : list A) :
  (forall x, f x = g x) -> mapArray f l = mapArray g l.
Proof.
  intros H. induction l as [| x r IH]; [reflexivity |].
  cbn [mapArray]. now rewrite H, IH.
Qed.

(** On a request of texts the compiler on any values is the compiler
    on texts. *)
Lemma sqlForFilterQueriesAny_asValues (rejected : list string) (queries : Obj string)
  (allowed : option (list string)) :
  sqlForFilterQueriesAny rejected (asValues queries) allowed
  = sqlForFilterQueries rejected queries allowed.
Proof.
  unfold sqlForFilterQueriesAny, sqlForFilterQueries.
  rewrite keys_asValues, !get_asValues.
  rewrite (mapArray_ext _ _ _ (queryFragmentAny_asValues queries)).
  assert (existsb (rejectedIncludes rejected) (Object.values (asValues queries))
          = existsb (includes rejected) (Object.values queries)) as ->.
  { unfold Object.values, asValues. rewrite !map_map.
    induction queries as [| [k v] r IH]; [reflexivity |].
    cbn [map existsb fst snd rejectedIncludes]. cbn [fst snd] in IH. now rewrite IH. }
  destruct (Object.get queries "minEmployees"), (Object.get queries "maxEmployees");
    reflexivity.
Qed.





